(** * Training-log dashboard: load calculator, weekly calendar, bubble remapper

    A shallow embedding of [application/plotlydash/dashboard_log.py]:
    - [TrainingLoad]: [calc_ctl_atl], the ATL/CTL recurrences, and the
      training-stress graph of [update_figure] and [create_tss_fig];
    - [Calendar]: the proleptic Gregorian dates of [datetime.date];
    - [WeeklyLog]: the two [update_calendar] callbacks, [create_week_sum],
      [create_week_cal] and [update_week_cal].

    Numbers.  Python [int] is [Z].  In [TrainingLoad] a Python [float] is a
    real number ([R]): the recurrences are read in exact arithmetic, the
    rounding of binary64 is not modelled.  In [WeeklyLog] the float type and
    its library operations are parameters, so that the results there hold
    for whatever arithmetic is plugged in. *)

From Stdlib Require Import String Ascii DecimalString.
From Stdlib Require Import ZArith List Bool Lia.
From Stdlib Require Import QArith Reals Lra.
From Stdlib Require Import Permutation Sorted.
Import ListNotations.

Close Scope R_scope.
Close Scope Q_scope.

(** ** Shared vocabulary *)

(** Exceptions are modelled by [None]: a computation that raises has no
    result. *)
Definition bind {A B : Type} (c : option A) (k : A -> option B) : option B :=
  match c with
  | Some a => k a
  | None => None
  end.

Notation "x <- c ;; k" := (bind c (fun x => k))
  (at level 61, c at next level, right associativity).

(** [for i in idxs: st = body(i, st)], stopping at the first exception. *)
Fixpoint for_each {I S : Type} (idxs : list I) (body : I -> S -> option S)
    (st : S) : option S :=
  match idxs with
  | [] => Some st
  | i :: rest => st' <- body i st ;; for_each rest body st'
  end.

(** [[f(a) for a in l]] where [f] may raise. *)
Fixpoint map_opt {A B : Type} (f : A -> option B) (l : list A)
    : option (list B) :=
  match l with
  | [] => Some []
  | a :: rest => b <- f a ;; bs <- map_opt f rest ;; Some (b :: bs)
  end.

(** [seq.iloc[i]] and [lst[i]] for a non-negative [i]: [IndexError] when out
    of range. *)
Definition iloc {A : Type} (l : list A) (i : nat) : option A := nth_error l i.

Definition is_some {A : Type} (c : option A) : bool :=
  match c with
  | Some _ => true
  | None => false
  end.

(** [v or default] for an optional value. *)
Definition or_default {A : Type} (v : option A) (default : A) : A :=
  match v with
  | Some a => a
  | None => default
  end.

(** [range(lo, hi)]. *)
Fixpoint count_from (lo : Z) (n : nat) : list Z :=
  match n with
  | O => []
  | S n' => lo :: count_from (lo + 1)%Z n'
  end.

Definition range (lo hi : Z) : list Z := count_from lo (Z.to_nat (hi - lo)).

(** A tz-aware [pandas.Timestamp]: the instant in nanoseconds since the
    epoch (UTC) and the UTC offset, in seconds, that its time zone has at
    that instant. *)
Record Timestamp : Type := mkTimestamp {
  value : Z;
  utcoffset : Z
}.

(** [a - b] on tz-aware timestamps is the difference of the instants, a
    [Timedelta] in nanoseconds. *)
Definition timestamp_sub (a b : Timestamp) : Z := value a - value b.

(** ** The training-load calculator *)

Module TrainingLoad.

Local Open Scope R_scope.

(** A row of the frame that [update_figure] builds
    ([fields = ['recorded', 'tss', 'title', 'elapsed_time_s']]). *)
Record row : Type := mkrow {
  recorded : Timestamp;
  tss : R;
  title : string;
  elapsed_time_s : Z
}.

Definition DataFrame : Type := list row.

(** [Timedelta.total_seconds()]. *)
Definition total_seconds (td : Z) : R := IZR td / 1000000000.

(** The four columns that [calc_ctl_atl] adds to the frame. *)
Record columns : Type := mkcolumns {
  ATL_pre : list R;
  CTL_pre : list R;
  ATL_post : list R;
  CTL_post : list R
}.

(** The body of [for i in range(1, len(df))]. *)
Definition loop_body (df : DataFrame) (i : nat) (st : columns)
    : option columns :=
  cur <- iloc df i ;;
  prev <- iloc df (i - 1) ;;
  let delta_t_days :=
    total_seconds (timestamp_sub (recorded cur) (recorded prev)) / (3600 * 24) in
  atl_pre_prev <- iloc (ATL_pre st) (i - 1) ;;
  let atl_pre :=
    ATL_pre st ++ [(atl_pre_prev + tss prev / 7) * Rpower (6 / 7) delta_t_days] in
  atl_post_prev <- iloc (ATL_post st) (i - 1) ;;
  let atl_post :=
    ATL_post st ++ [tss cur / 7 + atl_post_prev * Rpower (6 / 7) delta_t_days] in
  ctl_pre_prev <- iloc (CTL_pre st) (i - 1) ;;
  let ctl_pre :=
    CTL_pre st ++ [(ctl_pre_prev + tss prev / 42) * Rpower (41 / 42) delta_t_days] in
  ctl_post_prev <- iloc (CTL_post st) (i - 1) ;;
  let ctl_post :=
    CTL_post st ++ [tss cur / 42 + ctl_post_prev * Rpower (41 / 42) delta_t_days] in
  Some {| ATL_pre := atl_pre; CTL_pre := ctl_pre;
          ATL_post := atl_post; CTL_post := ctl_post |}.

Definition calc_ctl_atl (df : DataFrame) : option columns :=
  first <- iloc df 0 ;;
  let atl_0 := 0 in
  let ctl_0 := 0 in
  let init :=
    {| ATL_pre := [atl_0]; CTL_pre := [ctl_0];
       ATL_post := [tss first / 7 + atl_0];
       CTL_post := [tss first / 42 + ctl_0] |} in
  for_each (seq 1 (length df - 1)) (loop_body df) init.

(** *** Vocabulary of the specification *)

(** [t_i], the timestamp of activity [i] in seconds, and [tss_i]. *)
Definition t_ (df : DataFrame) (i : nat) : R :=
  match nth_error df i with
  | Some r => IZR (value (recorded r)) / 1000000000
  | None => 0
  end.

Definition tss_ (df : DataFrame) (i : nat) : R :=
  match nth_error df i with
  | Some r => tss r
  | None => 0
  end.

(** [Delta_i = (t_i - t_{i-1}) / 86400], fractional days. *)
Definition Delta (df : DataFrame) (i : nat) : R :=
  (t_ df i - t_ df (i - 1)) / 86400.

(** One exponentially weighted pair of series: time constant [tau] (the
    divisor) and decay base [base]. *)
Definition ewma_pair (df : DataFrame) (tau base : R) (before after : list R)
    : Prop :=
  length before = length df /\
  length after = length df /\
  nth 0 before 0 = 0 /\
  nth 0 after 0 = tss_ df 0 / tau /\
  forall i : nat, (1 <= i < length df)%nat ->
    nth i before 0 =
      (nth (i - 1) before 0 + tss_ df (i - 1) / tau) * Rpower base (Delta df i) /\
    nth i after 0 =
      tss_ df i / tau + nth (i - 1) after 0 * Rpower base (Delta df i).

Definition load_series (df : DataFrame) (out : columns) : Prop :=
  ewma_pair df 7 (6 / 7) (ATL_pre out) (ATL_post out) /\
  ewma_pair df 42 (41 / 42) (CTL_pre out) (CTL_post out).

Definition nonneg_tss (df : DataFrame) : Prop :=
  forall i : nat, (i < length df)%nat -> 0 <= tss_ df i.

(** The loop invariant: after the iterations [1 .. k-1] every column has
    [k] entries, and they obey the recurrences below [k]. *)
Definition pair_upto (df : DataFrame) (tau base : R) (k : nat)
    (before after : list R) : Prop :=
  length before = k /\
  length after = k /\
  nth 0 before 0 = 0 /\
  nth 0 after 0 = tss_ df 0 / tau /\
  forall i : nat, (1 <= i < k)%nat ->
    nth i before 0 =
      (nth (i - 1) before 0 + tss_ df (i - 1) / tau) * Rpower base (Delta df i) /\
    nth i after 0 =
      tss_ df i / tau + nth (i - 1) after 0 * Rpower base (Delta df i).

(** A frame of two activities, one day and a half apart, used to try the
    statements below. *)
Definition two_runs : DataFrame :=
  [ {| recorded := mkTimestamp 1609502400000000000 (-25200);
       tss := 70; title := "Morning Run"; elapsed_time_s := 3600 |};
    {| recorded := mkTimestamp 1609632000000000000 (-25200);
       tss := 42; title := "Lunch Run"; elapsed_time_s := 1800 |} ].

(** *** The training-stress figure *)

(** What [update_figure] and [create_tss_fig] take from pandas and from the
    time-zone database: [frame.sort_values(by=...)] on an integer key (its
    default sort is not stable, so it is left open which sorted
    arrangement comes out), and the UTC offset, in seconds, of
    America/Denver at an instant. *)
Class Pandas : Type := {
  sort_values : forall A : Type, (A -> Z) -> list A -> list A;
  denver_utcoffset : Z -> Z
}.

Class PandasLaws (P : Pandas) : Prop := {
  sort_values_perm :
    forall (A : Type) (key : A -> Z) (l : list A),
      Permutation l (sort_values A key l);
  sort_values_sorted :
    forall (A : Type) (key : A -> Z) (l : list A),
      Sorted (fun a b => (key a <= key b)%Z) (sort_values A key l)
}.

(** A row of the frame once [calc_ctl_atl] has added its four columns. *)
Record loaded_row : Type := mkloaded_row {
  base : row;
  atl_pre : R;
  ctl_pre : R;
  atl_post : R;
  ctl_post : R
}.

(** The assignments [df['ATL_pre'] = atl_pre] and the like: [ValueError]
    when a list has not the length of the frame. *)
Fixpoint add_columns (df : DataFrame) (atl_pre ctl_pre atl_post ctl_post : list R)
    : option (list loaded_row) :=
  match df, atl_pre, ctl_pre, atl_post, ctl_post with
  | [], [], [], [], [] => Some []
  | r :: df', a :: atl_pre', c :: ctl_pre', a' :: atl_post', c' :: ctl_post' =>
      rest <- add_columns df' atl_pre' ctl_pre' atl_post' ctl_post' ;;
      Some ({| base := r; atl_pre := a; ctl_pre := c;
               atl_post := a'; ctl_post := c' |} :: rest)
  | _, _, _, _, _ => None
  end.

(** A row of [df_stress]. *)
Record stress_row : Type := mkstress_row {
  ctl : R;
  atl : R;
  date : Timestamp
}.

(** A [go.Scatter]: its points, its hover texts if any, its name; colours
    and fill are constant. *)
Record Scatter (T : Type) : Type := mkScatter {
  x : list Timestamp;
  y : list R;
  text : option (list T);
  name : string;
  mode : string
}.

Arguments x {T} s.
Arguments y {T} s.
Arguments text {T} s.
Arguments name {T} s.
Arguments mode {T} s.

(** The figure of the training-stress graph: the three traces and the two
    axis ranges.  An end of a range is [None] where pandas gives [NaT] or
    [NaN], on an empty frame. *)
Record TssFigure : Type := mkTssFigure {
  trace_tss : Scatter string;
  trace_ctl : Scatter R;
  trace_atl : Scatter R;
  xaxis_range : option Timestamp * option Timestamp;
  yaxis_range : R * option R
}.

(** [series.min()] and [series.max()] of a timestamp column, and
    [series.max()] of a float column. *)
Definition earlier (a b : Timestamp) : Timestamp :=
  if (value a <=? value b)%Z then a else b.

Definition later (a b : Timestamp) : Timestamp :=
  if (value a <=? value b)%Z then b else a.

Definition series_min (l : list Timestamp) : option Timestamp :=
  match l with
  | [] => None
  | a :: rest => Some (fold_left earlier rest a)
  end.

Definition series_max (l : list Timestamp) : option Timestamp :=
  match l with
  | [] => None
  | a :: rest => Some (fold_left later rest a)
  end.

Definition float_max (l : list R) : option R :=
  match l with
  | [] => None
  | a :: rest => Some (fold_left Rmax rest a)
  end.

Section Figure.

Context {P : Pandas}.

(** [series.dt.tz_localize(tz.tzutc()).dt.tz_convert(tz.gettz('America/Denver'))]
    on a naive UTC timestamp: the instant stays, the offset is Denver's. *)
Definition tz_convert_denver (ts : Timestamp) : Timestamp :=
  {| value := value ts; utcoffset := denver_utcoffset (value ts) |}.

(** [ts + pd.to_timedelta(s, unit='s')] for a timestamp in Denver time. *)
Definition add_seconds (ts : Timestamp) (s : Z) : Timestamp :=
  let v := (value ts + s * 1000000000)%Z in
  {| value := v; utcoffset := denver_utcoffset v |}.

Definition pre_sample (r : loaded_row) : stress_row :=
  {| ctl := ctl_pre r; atl := atl_pre r; date := recorded (base r) |}.

Definition post_sample (r : loaded_row) : stress_row :=
  {| ctl := ctl_post r; atl := atl_post r;
     date := add_seconds (recorded (base r)) (elapsed_time_s (base r)) |}.

Definition create_tss_fig (df : list loaded_row) : TssFigure :=
  let df_stress :=
    sort_values stress_row (fun s => value (date s))
      (map pre_sample df ++ map post_sample df) in
  {| trace_tss :=
       {| x := map (fun r => recorded (base r)) df;
          y := map (fun r => tss (base r)) df;
          text := Some (map (fun r => title (base r)) df);
          name := "TSS"; mode := "markers" |};
     trace_ctl :=
       {| x := map date df_stress;
          y := map ctl df_stress;
          text := None;
          name := "CTL"; mode := "lines" |};
     trace_atl :=
       {| x := map date df_stress;
          y := map atl df_stress;
          text := Some (map (fun s => atl s - ctl s) df_stress);
          name := "ATL"; mode := "lines" |};
     xaxis_range :=
       (series_min (map (fun r => recorded (base r)) df),
        series_max (map (fun r => recorded (base r)) df));
     yaxis_range :=
       (0, option_map (Rmult (11 / 10))
                      (float_max (map (fun r => tss (base r)) df))) |}.

(** The callback of the training-stress graph, given the rows of
    [Activity.query.all()] with their naive UTC timestamps. *)
Definition sorted_local (activities : DataFrame) : DataFrame :=
  let df := sort_values row (fun r => value (recorded r)) activities in
  map (fun r => {| recorded := tz_convert_denver (recorded r);
                   tss := tss r; title := title r;
                   elapsed_time_s := elapsed_time_s r |}) df.

Definition update_figure (activities : DataFrame) : option TssFigure :=
  let df := sorted_local activities in
  out <- calc_ctl_atl df ;;
  loaded <- add_columns df (ATL_pre out) (CTL_pre out)
                        (ATL_post out) (CTL_post out) ;;
  Some (create_tss_fig loaded).

End Figure.



(** Insertion sort by key, a sort that [sort_values] may be. *)
Fixpoint insert_by {A : Type} (key : A -> Z) (a : A) (l : list A) : list A :=
  match l with
  | [] => [a]
  | b :: rest =>
      if (key a <=? key b)%Z then a :: l else b :: insert_by key a rest
  end.

Definition insertion_sort (A : Type) (key : A -> Z) (l : list A) : list A :=
  fold_right (insert_by key) [] l.

(** Pandas with insertion sort, and Denver on standard time throughout. *)
#[export] Instance sample_pandas : Pandas := {|
  sort_values := insertion_sort;
  denver_utcoffset := fun _ => (-25200)%Z
|}.

(** Chronological order of the frame, which [sort_values(by='recorded')]
    establishes; activities at least one day apart; stress scores of at
    most [M]. *)
Definition chronological (df : DataFrame) : Prop :=
  forall i : nat, (1 <= i < length df)%nat -> t_ df (i - 1) <= t_ df i.

Definition daily_apart (df : DataFrame) : Prop :=
  forall i : nat, (1 <= i < length df)%nat -> 1 <= Delta df i.

Definition tss_at_most (M : R) (df : DataFrame) : Prop :=
  forall i : nat, (i < length df)%nat -> tss_ df i <= M.

(** The stress scores of the activities before [k], each divided by [tau]
    and decayed from its own timestamp to that of activity [i]:
    the sum over [j < k] of [tss_j / tau * base ^ ((t_i - t_j) / 86400)]. *)
Fixpoint weighted_sum (df : DataFrame) (tau base : R) (i k : nat) : R :=
  match k with
  | O => 0
  | S j =>
      weighted_sum df tau base i j
      + tss_ df j / tau * Rpower base ((t_ df i - t_ df j) / 86400)
  end.

(** Two activities recorded at the same instant. *)
Definition double_session : DataFrame :=
  [ {| recorded := mkTimestamp 1609502400000000000 (-25200);
       tss := 70; title := "Run"; elapsed_time_s := 3600 |};
    {| recorded := mkTimestamp 1609502400000000000 (-25200);
       tss := 14; title := "Strides"; elapsed_time_s := 600 |} ].

End TrainingLoad.

(** ** Dates

    The part of [datetime] and of [pandas] timestamps that the weekly log
    uses.  A [datetime.date] is represented by its proleptic Gregorian
    ordinal ([date.toordinal()], 1 for 0001-01-01): comparison of dates is
    comparison of ordinals, and adding a [timedelta] of whole days adds to
    the ordinal. *)

Module Calendar.

Local Open Scope string_scope.
Local Open Scope Z_scope.

Definition date : Type := Z.

(** [date.min.toordinal()] and [date.max.toordinal()] (9999-12-31). *)
Definition MINORDINAL : Z := 1.
Definition MAXORDINAL : Z := 3652059.

Definition is_leap (year : Z) : bool :=
  (year mod 4 =? 0) && (negb (year mod 100 =? 0) || (year mod 400 =? 0)).

Definition days_before_year (year : Z) : Z :=
  let y := year - 1 in
  y * 365 + y / 4 - y / 100 + y / 400.

Definition DAYS_IN_MONTH : list Z :=
  [0; 31; 28; 31; 30; 31; 30; 31; 31; 30; 31; 30; 31].

Definition DAYS_BEFORE_MONTH : list Z :=
  [0; 0; 31; 59; 90; 120; 151; 181; 212; 243; 273; 304; 334].

Definition days_in_month (year month : Z) : Z :=
  if (month =? 2) && is_leap year then 29
  else nth (Z.to_nat month) DAYS_IN_MONTH 0.

Definition days_before_month (year month : Z) : Z :=
  nth (Z.to_nat month) DAYS_BEFORE_MONTH 0
  + (if (month >? 2) && is_leap year then 1 else 0).

Definition ymd2ord (year month day : Z) : Z :=
  days_before_year year + days_before_month year month + day.

(** [datetime.date(year, month, day)]: [ValueError] outside the calendar. *)
Definition mkdate (year month day : Z) : option date :=
  if (1 <=? year) && (year <=? 9999) && (1 <=? month) && (month <=? 12)
     && (1 <=? day) && (day <=? days_in_month year month)
  then Some (ymd2ord year month day)
  else None.

(** Days in 400, 100 and 4 years. *)
Definition DI400Y : Z := 146097.
Definition DI100Y : Z := 36524.
Definition DI4Y : Z := 1461.

(** The year, month and day of an ordinal, as [datetime] computes them. *)
Definition ord2ymd (n : Z) : Z * Z * Z :=
  let n := n - 1 in
  let n400 := n / DI400Y in
  let n := n mod DI400Y in
  let year := n400 * 400 + 1 in
  let n100 := n / DI100Y in
  let n := n mod DI100Y in
  let n4 := n / DI4Y in
  let n := n mod DI4Y in
  let n1 := n / 365 in
  let n := n mod 365 in
  let year := year + n100 * 100 + n4 * 4 + n1 in
  if (n1 =? 4) || (n100 =? 4) then (year - 1, 12, 31)
  else
    let leapyear := (n1 =? 3) && (negb (n4 =? 24) || (n100 =? 3)) in
    let month := Z.shiftr (n + 50) 5 in
    let preceding :=
      nth (Z.to_nat month) DAYS_BEFORE_MONTH 0
      + (if (month >? 2) && leapyear then 1 else 0) in
    if preceding >? n then
      let month := month - 1 in
      let preceding :=
        preceding
        - (nth (Z.to_nat month) DAYS_IN_MONTH 0
           + (if (month =? 2) && leapyear then 1 else 0)) in
      (year, month, n - preceding + 1)
    else (year, month, n - preceding + 1).

Definition year (d : date) : Z := fst (fst (ord2ymd d)).
Definition month (d : date) : Z := snd (fst (ord2ymd d)).
Definition day (d : date) : Z := snd (ord2ymd d).

(** [d.weekday()]: Monday is 0, Sunday is 6. *)
Definition weekday (d : date) : Z := (d + 6) mod 7.

(** [d + datetime.timedelta(days)] and [d - datetime.timedelta(days)]:
    [OverflowError] when the result leaves the calendar. *)
Definition date_add (d : date) (days : Z) : option date :=
  let o := d + days in
  if (0 <? o) && (o <=? MAXORDINAL) then Some o else None.

Definition date_sub (d : date) (days : Z) : option date :=
  date_add d (- days).

(** [str(n)] and [f'{n}'] for an [int]. *)
Definition Z_to_string (n : Z) : string := NilZero.string_of_int (Z.to_int n).

(** [f'{n:02d}'] for a non-negative [n]. *)
Definition two_digits (n : Z) : string :=
  if n <? 10 then "0" ++ Z_to_string n else Z_to_string n.

Definition month_abbr (m : Z) : string :=
  nth (Z.to_nat m)
    [""; "Jan"; "Feb"; "Mar"; "Apr"; "May"; "Jun";
     "Jul"; "Aug"; "Sep"; "Oct"; "Nov"; "Dec"] "".

Definition day_abbr (wd : Z) : string :=
  nth (Z.to_nat wd) ["Mon"; "Tue"; "Wed"; "Thu"; "Fri"; "Sat"; "Sun"] "".

(** [d.strftime("%b %-d")] and [d.strftime("%-d")] in the C locale. *)
Definition strftime_b_d (d : date) : string :=
  month_abbr (month d) ++ " " ++ Z_to_string (day d).

Definition strftime_d (d : date) : string := Z_to_string (day d).

(** The ordinal of 1970-01-01, and a day in nanoseconds. *)
Definition EPOCH_ORDINAL : Z := 719163.
Definition NS_PER_S : Z := 1000000000.
Definition NS_PER_DAY : Z := 86400 * NS_PER_S.

(** Wall-clock nanoseconds of a timestamp in its own zone. *)
Definition wall_ns (ts : Timestamp) : Z := value ts + utcoffset ts * NS_PER_S.

(** [ts.date()], the element of [series.dt.date]. *)
Definition dt_date (ts : Timestamp) : date :=
  EPOCH_ORDINAL + wall_ns ts / NS_PER_DAY.

(** [ts.weekday()], the element of [series.dt.weekday]. *)
Definition dt_weekday (ts : Timestamp) : Z := weekday (dt_date ts).

(** [ts.strftime('%a, %b %-d, %Y %-I:%M %p')]. *)
Definition strftime_hover (ts : Timestamp) : string :=
  let d := dt_date ts in
  let secs := (wall_ns ts mod NS_PER_DAY) / NS_PER_S in
  let hour := secs / 3600 in
  let minute := (secs mod 3600) / 60 in
  let hour12 := if hour mod 12 =? 0 then 12 else hour mod 12 in
  day_abbr (weekday d) ++ ", " ++ strftime_b_d d ++ ", "
  ++ Z_to_string (year d) ++ " "
  ++ Z_to_string hour12 ++ ":" ++ two_digits minute ++ " "
  ++ (if hour <? 12 then "AM" else "PM").

End Calendar.

(** ** The weekly log *)

Module WeeklyLog.

Import Calendar.
Local Open Scope string_scope.
Local Open Scope Z_scope.

(** The float operations that the weekly log takes from Python and its
    libraries.  They are an interface: nothing below depends on how a
    float is represented or rounded. *)
Class PyFloat (float : Type) : Type := {
  (** the float that a decimal literal such as [26.2] denotes *)
  float_of_Q : Q -> float;
  (** the conversion of an [int] operand *)
  float_of_int : Z -> float;
  (** [float(s)] for a string: [ValueError] when it does not parse *)
  float_of_str : string -> option float;
  fadd : float -> float -> float;
  fmul : float -> float -> float;
  fdiv : float -> float -> float;
  (** [round(x)] *)
  fround : float -> Z;
  (** [f'{x:.nf}'] *)
  format_f : nat -> float -> string
}.

(** A Python value as it sits in [customdata] or in [marker.size]. *)
Inductive pyval (float : Type) : Type :=
  | VInt (z : Z)
  | VFloat (v : float)
  | VStr (s : string).

Arguments VInt {float} z.
Arguments VFloat {float} v.
Arguments VStr {float} s.

(** [application/util.py], which is not among the sources, taken as a
    parameter: two conversion constants and three helpers, each of which
    may raise. *)
Class Util (float : Type) : Type := {
  M_PER_MI : float;
  FT_PER_M : float;
  seconds_to_string : Z -> option string;
  string_to_seconds : pyval float -> option Z;
  speed_to_pace : float -> option string
}.

(** [math.floor(a / b)] and [round(a / b)] for [int] operands and a positive
    [b]: the quotient [a / b] is a float, but below [2^53] flooring and
    rounding it give what they give on the exact quotient.  [round] takes
    a tie to the even neighbour. *)
Definition floor_truediv (a b : Z) : Z := a / b.

Definition round_truediv (a b : Z) : Z :=
  let q := a / b in
  let r := a mod b in
  if 2 * r <? b then q
  else if 2 * r >? b then q + 1
  else if Z.even q then q else q + 1.

(** [txt.split(sep)[0]]. *)
Fixpoint split_head (sep : ascii) (txt : string) : string :=
  match txt with
  | EmptyString => EmptyString
  | String c rest =>
      if Ascii.eqb c sep then EmptyString else String c (split_head sep rest)
  end.

Definition dquote : string := String "034"%char EmptyString.

(** The values of the 'bubble-dropdown' selector. *)
Definition bubble_options : list string :=
  ["Distance"; "Time"; "Elevation"; "TSS"].

Section Dashboard.

Context {float : Type} {PF : PyFloat float} {U : Util float}.

(** [float(v)]. *)
Definition py_float (v : pyval float) : option float :=
  match v with
  | VInt z => Some (float_of_int z)
  | VFloat f => Some f
  | VStr s => float_of_str s
  end.

(** [series.sum()] of an int column and of a float column. *)
Definition zsum (l : list Z) : Z := fold_left Z.add l 0.

Definition fsum (l : list float) : float := fold_left fadd l (float_of_int 0).

(** [0.5 * 100 ** 2], the denominator of every [sizeref]. *)
Definition sizeref_denominator : float :=
  fmul (float_of_Q (5 # 10)) (float_of_int (100 ^ 2)).

(** A row of the frame that [update_calendar] builds; the [weekday] column
    is derived from [recorded]. *)
Record row : Type := mkrow {
  id : Z;
  recorded : Timestamp;
  tss : float;
  title : string;
  description : string;
  elapsed_time_s : Z;
  moving_time_s : Z;
  distance_m : float;
  elevation_m : float
}.

Definition DataFrame : Type := list row.

(** [df['recorded'].dt.date] and [df['weekday']], row by row. *)
Definition recorded_date (r : row) : date := dt_date (recorded r).
Definition weekday_ (r : row) : Z := dt_weekday (recorded r).

(** *** The week summary *)

(** The texts of the [html.Div] that [create_week_sum] returns; its styling
    is constant and left out. *)
Record WeekSum : Type := mkWeekSum {
  date_str : string;
  time_str : string;
  elevation_str : string;
  distance_str : string
}.

Definition create_week_sum (df_week : DataFrame) (date_start : date)
    : option WeekSum :=
  date_end <- date_add date_start 6 ;;
  let date_str :=
    if negb (month date_start =? month date_end)
    then strftime_b_d date_start ++ "-" ++ strftime_b_d date_end
    else strftime_b_d date_start ++ "-" ++ strftime_d date_end in
  let moving_time_s := zsum (map moving_time_s df_week) in
  let time_str :=
    if moving_time_s <? 30 then "--:--"
    else
      let hrs := floor_truediv moving_time_s 3600 in
      let mins := round_truediv (moving_time_s - hrs * 3600) 60 in
      Z_to_string hrs ++ "h" ++ Z_to_string mins ++ "m" in
  Some {| date_str := date_str;
          time_str := time_str;
          elevation_str :=
            Z_to_string (fround (fmul (fsum (map elevation_m df_week)) FT_PER_M))
            ++ " ft";
          distance_str :=
            format_f 1 (fdiv (fsum (map distance_m df_week)) M_PER_MI)
            ++ " mi" |}.

(** *** The week calendar figure *)

Record Marker : Type := mkMarker {
  size : list (pyval float);
  sizemode : string;
  sizeref : float
}.

Record Trace : Type := mkTrace {
  x : list Z;
  y : list Z;
  text : list string;
  name : string;
  mode : string;
  marker : Marker;
  customdata : list (list (pyval float))
}.

(** Of the layout, the days that carry a 'Rest' annotation and the
    transition duration; axes, grid lines and colours are constant. *)
Record Layout : Type := mkLayout {
  annotations : list Z;
  transition_duration : option Z
}.

Record Figure : Type := mkFigure {
  data : list Trace;
  layout : Layout
}.

(** The anchor that opens a bubble's label. *)
Definition anchor (id : Z) : string :=
  "<a href=" ++ dquote ++ "/dash-saved-activity/" ++ Z_to_string id
  ++ dquote ++ ">".

(** One row of the transposed [customdata] array. *)
Definition customdata_row (r : row) : option (list (pyval float)) :=
  moving_str <- seconds_to_string (moving_time_s r) ;;
  moving_pace <-
    speed_to_pace (fdiv (distance_m r) (float_of_int (moving_time_s r))) ;;
  overall_pace <-
    speed_to_pace (fdiv (distance_m r) (float_of_int (elapsed_time_s r))) ;;
  Some [ VStr (strftime_hover (recorded r));
         VInt (id r);
         VStr (title r);
         VStr (substring 0 50 (description r) ++ " ...");
         VFloat (fdiv (distance_m r) M_PER_MI);
         VStr moving_str;
         VStr moving_pace;
         VStr overall_pace;
         VFloat (fmul (elevation_m r) FT_PER_M);
         VFloat (tss r) ].

Definition create_week_cal (df_week : DataFrame) : option Figure :=
  let rest_days :=
    filter (fun x => negb (existsb (Z.eqb x) (map weekday_ df_week)))
           (range 0 7) in
  customdata <- map_opt customdata_row df_week ;;
  Some {|
    data := [ {|
      x := map weekday_ df_week;
      y := map (fun _ => 2) df_week;
      text :=
        map (fun r => anchor (id r)
                      ++ format_f 1 (fdiv (distance_m r) M_PER_MI) ++ "</a>")
            df_week;
      name := "easy";
      mode := "markers+text";
      marker := {|
        size := map (fun r => VFloat (distance_m r)) df_week;
        sizemode := "area";
        sizeref :=
          fdiv (fmul (float_of_Q (160934 # 100)) (float_of_Q (262 # 10)))
               sizeref_denominator |};
      customdata := customdata |} ];
    layout := {| annotations := rest_days; transition_duration := None |} |}.

(** *** The metric remapper *)

Definition href (txt : string) : string := split_head ">"%char txt ++ ">".

(** The new [text], [marker.size] and [marker.sizeref] of the first trace,
    or the trace as it is for a metric that no branch names. *)
Definition remap_trace (tr : Trace) (bubble_type : string) : option Trace :=
  let hrefs := map href (text tr) in
  let set (text' : list string) (size' : list (pyval float))
          (sizeref' : float) :=
    {| x := x tr; y := y tr; text := text'; name := name tr; mode := mode tr;
       marker := {| size := size'; sizemode := sizemode (marker tr);
                    sizeref := sizeref' |};
       customdata := customdata tr |} in
  if (bubble_type =? "Time")%string then
    time_strs <- map_opt (fun cdata => iloc cdata 5) (customdata tr) ;;
    secs <- map_opt string_to_seconds time_strs ;;
    Some (set
      (map (fun '(a, s) =>
              a ++ Z_to_string (floor_truediv s 3600) ++ "hr"
              ++ Z_to_string (round_truediv (s mod 3600) 60) ++ "m</a>")
           (combine hrefs secs))
      (map VInt secs)
      (fdiv (fmul (float_of_Q (35 # 10)) (float_of_int 3600))
            sizeref_denominator))
  else if (bubble_type =? "Distance")%string then
    dists_mi <- map_opt (fun cdata => c <- iloc cdata 4 ;; py_float c)
                        (customdata tr) ;;
    Some (set
      (map (fun '(a, d) => a ++ format_f 1 d ++ "</a>") (combine hrefs dists_mi))
      (map VFloat dists_mi)
      (fdiv (float_of_Q (262 # 10)) sizeref_denominator))
  else if (bubble_type =? "Elevation")%string then
    elevs_ft <- map_opt (fun cdata => c <- iloc cdata 8 ;; py_float c)
                        (customdata tr) ;;
    Some (set
      (map (fun '(a, e) => a ++ format_f 0 e ++ "</a>") (combine hrefs elevs_ft))
      (map VFloat elevs_ft)
      (fdiv (float_of_int 7000) sizeref_denominator))
  else if (bubble_type =? "TSS")%string then
    tsss <- map_opt (fun cdata => c <- iloc cdata 9 ;; py_float c)
                    (customdata tr) ;;
    Some (set
      (map (fun '(a, t) => a ++ format_f 1 t ++ "</a>") (combine hrefs tsss))
      (map VFloat tsss)
      (fdiv (float_of_int 250) sizeref_denominator))
  else Some tr.

Definition update_week_cal (fig : Figure) (bubble_type : string)
    : option Figure :=
  tr <- iloc (data fig) 0 ;;
  tr' <- remap_trace tr bubble_type ;;
  Some {| data := tr' :: tl (data fig);
          layout := {| annotations := annotations (layout fig);
                       transition_duration := Some 1000 |} |}.

(** The callback on the metric selector (the second [update_calendar] of
    the source). *)
Definition update_calendar_figures (bubble_type : string)
    (figures : list Figure) : option (list Figure) :=
  map_opt (fun figure => update_week_cal figure bubble_type) figures.

(** *** The calendar rows *)

(** A week of the log: its date range and the rows recorded in it. *)
Record WeekBucket : Type := mkWeekBucket {
  mon_last : date;
  mon_latest : date;
  df_week : DataFrame
}.

(** The date [d] lies in the week of [b]; the row [r] was put into [b]. *)
Definition in_week (b : WeekBucket) (d : date) : Prop :=
  mon_last b <= d < mon_latest b.

Definition in_bucket (b : WeekBucket) (r : row) : Prop := In r (df_week b).

(** One [dbc.Row] of the calendar. *)
Record CalendarRow : Type := mkCalendarRow {
  week_summary_id : Z;
  week_summary : WeekSum;
  week_cal_index : Z;
  week_cal : Figure
}.

(** The first half of the loop body: the bounds of week [i] and the
    selection [df[(date < mon_latest) & (date >= mon_last)]]. *)
Definition week_bucket (today : date) (df : DataFrame) (i : Z)
    : option WeekBucket :=
  let idx := weekday today in
  let ix := idx + 7 * (i - 1) in
  mon_latest <- date_sub today ix ;;
  mon_last <- date_sub today (ix + 7) ;;
  Some {| mon_last := mon_last;
          mon_latest := mon_latest;
          df_week :=
            filter (fun r => (recorded_date r <? mon_latest)
                             && (recorded_date r >=? mon_last)) df |}.

(** The second half: the row appended for the week. *)
Definition calendar_row (i : Z) (b : WeekBucket) : option CalendarRow :=
  summary <- create_week_sum (df_week b) (mon_last b) ;;
  figure <- create_week_cal (df_week b) ;;
  Some {| week_summary_id := i; week_summary := summary;
          week_cal_index := i; week_cal := figure |}.

(** The callback on the 'Add more weeks' button, given today's date and the
    frame of all activities, sorted and converted to local time. *)
Definition update_calendar (n_clicks : option Z)
    (children : option (list CalendarRow)) (today : date) (df : DataFrame)
    : option (list CalendarRow) :=
  let n_clicks := or_default n_clicks 0 in
  let children := or_default children [] in
  for_each (range (3 * n_clicks) (3 * (n_clicks + 1)))
    (fun i children =>
       b <- week_bucket today df i ;;
       r <- calendar_row i b ;;
       Some (children ++ [r])%list)
    children.

(** *** Vocabulary of the specification *)

(** What a metric shows for the rows of [customdata]: for each row the
    text that follows the anchor together with the marker size, and the
    [sizeref] of the metric. *)
Definition metric_view (cd : list (list (pyval float))) (bubble_type : string)
    : option (list (string * pyval float) * float) :=
  if (bubble_type =? "Time")%string then
    time_strs <- map_opt (fun cdata => iloc cdata 5) cd ;;
    secs <- map_opt string_to_seconds time_strs ;;
    Some (map (fun s => (Z_to_string (floor_truediv s 3600) ++ "hr"
                         ++ Z_to_string (round_truediv (s mod 3600) 60)
                         ++ "m</a>",
                         VInt s)) secs,
          fdiv (fmul (float_of_Q (35 # 10)) (float_of_int 3600))
               sizeref_denominator)
  else if (bubble_type =? "Distance")%string then
    dists_mi <- map_opt (fun cdata => c <- iloc cdata 4 ;; py_float c) cd ;;
    Some (map (fun d => (format_f 1 d ++ "</a>", VFloat d)) dists_mi,
          fdiv (float_of_Q (262 # 10)) sizeref_denominator)
  else if (bubble_type =? "Elevation")%string then
    elevs_ft <- map_opt (fun cdata => c <- iloc cdata 8 ;; py_float c) cd ;;
    Some (map (fun e => (format_f 0 e ++ "</a>", VFloat e)) elevs_ft,
          fdiv (float_of_int 7000) sizeref_denominator)
  else if (bubble_type =? "TSS")%string then
    tsss <- map_opt (fun cdata => c <- iloc cdata 9 ;; py_float c) cd ;;
    Some (map (fun t => (format_f 1 t ++ "</a>", VFloat t)) tsss,
          fdiv (float_of_int 250) sizeref_denominator)
  else None.

(** The trace [tr] showing [view]: each label is the anchor of the old
    label followed by the new text. *)
Definition with_view (tr : Trace) (view : list (string * pyval float) * float)
    : Trace :=
  {| x := x tr; y := y tr;
     text := map (fun '(a, shown) => a ++ fst shown)
                 (combine (map href (text tr)) (fst view));
     name := name tr; mode := mode tr;
     marker := {| size := map snd (fst view);
                  sizemode := sizemode (marker tr);
                  sizeref := snd view |};
     customdata := customdata tr |}.

(** What the remapper reads of a trace: not the displayed labels, sizes
    and [sizeref], only the anchors of as many labels as there are rows in
    [customdata]. *)
Definition source (tr : Trace) :=
  (x tr, y tr, name tr, mode tr, sizemode (marker tr), customdata tr,
   firstn (length (customdata tr)) (map href (text tr))).

(** The distance of a row in miles, as [customdata] carries it. *)
Definition miles (r : row) : float := fdiv (distance_m r) M_PER_MI.

(** The labels and the marker sizes of a figure, trace by trace. *)
Definition labels (fig : Figure) : list (list string) := map text (data fig).

Definition sizes (fig : Figure) : list (list (pyval float)) :=
  map (fun tr => size (marker tr)) (data fig).

Definition exactly_one_of (P0 P1 P2 : Prop) : Prop :=
  (P0 /\ ~ P1 /\ ~ P2) \/ (~ P0 /\ P1 /\ ~ P2) \/ (~ P0 /\ ~ P1 /\ P2).

Definition none_shared {A : Type} (P0 P1 P2 : A -> Prop) : Prop :=
  forall a : A,
    ~ (P0 a /\ P1 a) /\ ~ (P0 a /\ P2 a) /\ ~ (P1 a /\ P2 a).

(** The three buckets of one window, newest first, partition the rows of
    [df] recorded in the window's 21 days. *)
Definition week_partition (df : DataFrame) (b0 b1 b2 : WeekBucket) : Prop :=
  (* half-open ranges, Monday to Monday *)
  (forall b : WeekBucket, In b [b0; b1; b2] ->
     (forall r : row,
        in_bucket b r <-> In r df /\ in_week b (recorded_date r)) /\
     weekday (mon_last b) = 0 /\
     mon_latest b = mon_last b + 7) /\
  (* consecutive weeks abut, the window spans 21 days *)
  mon_latest b1 = mon_last b0 /\
  mon_latest b2 = mon_last b1 /\
  mon_latest b0 = mon_last b2 + 21 /\
  (* the ranges are pairwise disjoint and cover the window *)
  none_shared (in_week b0) (in_week b1) (in_week b2) /\
  (forall d : date, mon_last b2 <= d < mon_latest b0 ->
     exactly_one_of (in_week b0 d) (in_week b1 d) (in_week b2 d)) /\
  (* so are the buckets *)
  none_shared (in_bucket b0) (in_bucket b1) (in_bucket b2) /\
  (forall r : row, In r df ->
     mon_last b2 <= recorded_date r < mon_latest b0 ->
     exactly_one_of (in_bucket b0 r) (in_bucket b1 r) (in_bucket b2 r)).

End Dashboard.

Arguments row : clear implicits.
Arguments DataFrame : clear implicits.
Arguments Marker : clear implicits.
Arguments Trace : clear implicits.
Arguments Figure : clear implicits.
Arguments WeekBucket : clear implicits.
Arguments CalendarRow : clear implicits.

(** The figure after the metric selector has taken the values [metrics]
    one after the other. *)
Fixpoint select_all {float : Type} {PF : PyFloat float} {U : Util float}
    (fig : Figure float) (metrics : list string) : option (Figure float) :=
  match metrics with
  | [] => Some fig
  | m :: rest => fig' <- update_week_cal fig m ;; select_all fig' rest
  end.


(** The rows of the calendar after the page load and [k] clicks on 'Add
    more weeks': Dash calls [update_calendar] with the number of clicks so
    far and with the rows that are on the page. *)
Fixpoint calendar_after {float : Type} {PF : PyFloat float} {U : Util float}
    (today : date) (df : DataFrame float) (k : nat)
    : option (list (CalendarRow float)) :=
  match k with
  | O => update_calendar None None today df
  | S k' =>
      rows <- calendar_after today df k' ;;
      update_calendar (Some (Z.of_nat k)) (Some rows) today df
  end.

(** *** Vocabulary of the specification, continued *)

(** The week-span label: month names on both sides when the week spans two
    months, the compact form otherwise. *)
Definition week_label (date_start date_end : date) : string :=
  if month date_start =? month date_end
  then strftime_b_d date_start ++ "-" ++ strftime_d date_end
  else strftime_b_d date_start ++ "-" ++ strftime_b_d date_end.

(** The moving-time display as the code computes it: whole hours, then the
    remaining minutes rounded on their own. *)
Definition moving_time_display (moving_time_s : Z) : string :=
  if moving_time_s <? 30 then "--:--"
  else
    Z_to_string (moving_time_s / 3600) ++ "h"
    ++ Z_to_string (round_truediv (moving_time_s mod 3600) 60) ++ "m".

(** The weeks that start on 29 and on 25 January of [y]: the month and day
    of their first and last dates are 1/29, 2/4 and 1/25, 1/31. *)
Definition month_day_is (d : date) (m dd : Z) : bool :=
  (month d =? m) && (day d =? dd).

Definition january_weeks_ok (y : Z) : bool :=
  match mkdate y 1 29, mkdate y 1 25 with
  | Some d29, Some d25 =>
      match date_add d29 6, date_add d25 6 with
      | Some e29, Some e25 =>
          month_day_is d29 1 29 && month_day_is e29 2 4
          && month_day_is d25 1 25 && month_day_is e25 1 31
      | _, _ => false
      end
  | _, _ => false
  end.

End WeeklyLog.

(** ** An executable instance

    Exact rational arithmetic in the place of binary64, and sample helpers
    in the place of [application/util.py].  The instance is what the
    statements below are tried on; it is not what they are proved for. *)

Module Exact.

Import Calendar WeeklyLog.
Local Open Scope string_scope.
Local Open Scope Z_scope.

(** [f'{q:.nf}'] on an exact rational: round to [n] places, ties to even. *)
Definition format_fixed (n : nat) (q : Q) : string :=
  let scale := 10 ^ Z.of_nat n in
  let m := round_truediv (Z.abs (Qnum q) * scale) (Zpos (Qden q)) in
  let sign := if Qnum q <? 0 then "-" else "" in
  let frac := Z_to_string (m mod scale) in
  let zeros := List.repeat "0" (n - String.length frac) in
  match n with
  | O => sign ++ Z_to_string m
  | S _ => sign ++ Z_to_string (m / scale) ++ "." ++ String.concat "" zeros ++ frac
  end.

(** What follows the first [sep] of [txt]. *)
Fixpoint split_tail (sep : ascii) (txt : string) : string :=
  match txt with
  | EmptyString => EmptyString
  | String c rest => if Ascii.eqb c sep then rest else split_tail sep rest
  end.

(** [float(s)] for a plain decimal numeral: an optional sign, digits, and
    an optional point followed by digits.  Exponents, [inf], [nan] and
    surrounding blanks, which Python also reads, are not. *)
Definition parse_decimal (s : string) : option Q :=
  let '(negative, body) :=
    match s with
    | String "-"%char rest => (true, rest)
    | String "+"%char rest => (false, rest)
    | _ => (false, s)
    end in
  let int_part := split_head "."%char body in
  let frac_part := split_tail "."%char body in
  match int_part ++ frac_part with
  | EmptyString => None
  | digits =>
      u <- NilEmpty.uint_of_string digits ;;
      let num := Z.of_uint u in
      let den := 10 ^ Z.of_nat (String.length frac_part) in
      Some (Qred ((if negative then - num else num) # Z.to_pos den))
  end.

#[export] Instance exact_float : PyFloat Q := {|
  float_of_Q := Qred;
  float_of_int := inject_Z;
  float_of_str := parse_decimal;
  fadd := fun a b => Qred (Qplus a b);
  fmul := fun a b => Qred (Qmult a b);
  fdiv := fun a b => Qred (Qdiv a b);
  fround := fun q => round_truediv (Qnum q) (Zpos (Qden q));
  format_f := format_fixed
|}.

(** Modelled from the spec: [application/util.py] is not among the
    sources.  The spec names what its helpers produce (distance in miles,
    moving time in seconds as a string, elevation in feet); the metres in a
    mile are the 1609.34 that [create_week_cal] writes in its [sizeref],
    and a pace is minutes and seconds per mile. *)
#[export] Instance sample_util : Util Q := {|
  M_PER_MI := Qred (160934 # 100);
  FT_PER_M := Qred (Qdiv (inject_Z 5280) (160934 # 100));
  seconds_to_string := fun s => Some (Z_to_string s);
  string_to_seconds := fun v =>
    match v with
    | VStr s => option_map Z.of_int (NilZero.int_of_string s)
    | _ => None
    end;
  speed_to_pace := fun v =>
    if Qnum v <=? 0 then None
    else
      let secs := round_truediv (160934 * Zpos (Qden v)) (100 * Qnum v) in
      Some (Z_to_string (secs / 60) ++ ":" ++ two_digits (secs mod 60))
|}.

(** Wednesday 2021-01-06, and three runs around it: two in that week, one
    in the week before.  Times are UTC instants, shown at UTC-7. *)
Definition today_wed : date := 737796.

Definition run_wed : row Q :=
  {| id := 101; recorded := mkTimestamp 1609941600000000000 (-25200);
     tss := (55 # 1)%Q; title := "Morning Run"; description := "Easy loop";
     elapsed_time_s := 3700; moving_time_s := 3599;
     distance_m := (10000 # 1)%Q; elevation_m := (120 # 1)%Q |}.

Definition run_mon : row Q :=
  {| id := 100; recorded := mkTimestamp 1609779600000000000 (-25200);
     tss := (40 # 1)%Q; title := "Recovery Run"; description := "Flat";
     elapsed_time_s := 3650; moving_time_s := 3600;
     distance_m := (8000 # 1)%Q; elevation_m := (30 # 1)%Q |}.

Definition run_prev : row Q :=
  {| id := 99; recorded := mkTimestamp 1609351200000000000 (-25200);
     tss := (80 # 1)%Q; title := "Long Run"; description := "Hills";
     elapsed_time_s := 7300; moving_time_s := 7199;
     distance_m := (21000 # 1)%Q; elevation_m := (400 # 1)%Q |}.

Definition sample_df : DataFrame Q := [run_prev; run_mon; run_wed].

(** The figure of the week of [today_wed] as it is first rendered, and
    what the remapper makes of it for 'Elevation', then 'Distance', and
    for 'Time'. *)
Definition blank_figure : Figure Q :=
  {| data := [];
     layout := {| annotations := []; transition_duration := None |} |}.

Definition rendered_week : Figure Q :=
  Eval vm_compute in
    or_default (create_week_cal [run_mon; run_wed]) blank_figure.

Definition elevation_week : Figure Q :=
  Eval vm_compute in
    or_default (update_week_cal rendered_week "Elevation") blank_figure.

Definition distance_week : Figure Q :=
  Eval vm_compute in
    or_default (update_week_cal elevation_week "Distance") blank_figure.

Definition time_week : Figure Q :=
  Eval vm_compute in
    or_default (update_week_cal rendered_week "Time") blank_figure.

End Exact.

(** * Properties *)

(** ** The training-load calculator *)

Module TrainingLoadSpec.

Import TrainingLoad.
Local Open Scope R_scope.

Lemma nth_snoc_old (l : list R) (x : R) (i : nat) :
  (i < length l)%nat -> nth i (l ++ [x]) 0 = nth i l 0.
Proof. intros Hi. now apply app_nth1. Qed.

Lemma nth_snoc_new (l : list R) (x : R) :
  nth (length l) (l ++ [x]) 0 = x.
Proof. rewrite app_nth2, Nat.sub_diag by lia. reflexivity. Qed.

Lemma iloc_nth (l : list R) (i : nat) :
  (i < length l)%nat -> iloc l i = Some (nth i l 0).
Proof. intros Hi. unfold iloc. now apply nth_error_nth'. Qed.

Lemma iloc_row (df : DataFrame) (i : nat) :
  (i < length df)%nat -> exists r, iloc df i = Some r.
Proof.
  intros Hi. unfold iloc. destruct (nth_error df i) eqn:E; eauto.
  apply nth_error_None in E. lia.
Qed.

Lemma delta_t_days_Delta (df : DataFrame) (i : nat) (cur prev : row) :
  iloc df i = Some cur -> iloc df (i - 1) = Some prev ->
  total_seconds (timestamp_sub (recorded cur) (recorded prev)) / (3600 * 24)
  = Delta df i.
Proof.
  unfold iloc, Delta, t_, total_seconds, timestamp_sub. intros -> ->.
  rewrite minus_IZR. field.
Qed.

Lemma pair_upto_snoc (df : DataFrame) (tau base : R) (k : nat)
    (before after : list R) :
  (1 <= k)%nat ->
  pair_upto df tau base k before after ->
  pair_upto df tau base (S k)
    (before ++ [(nth (k - 1) before 0 + tss_ df (k - 1) / tau)
                * Rpower base (Delta df k)])
    (after ++ [tss_ df k / tau + nth (k - 1) after 0 * Rpower base (Delta df k)]).
Proof.
  intros Hk (Lb & La & B0 & A0 & Hrec).
  unfold pair_upto. rewrite !length_app, Lb, La. cbn [length].
  repeat split; try lia.
  - rewrite nth_snoc_old by lia. exact B0.
  - rewrite nth_snoc_old by lia. exact A0.
  - destruct (Nat.eq_dec i k) as [-> | Hne].
    + rewrite <- Lb at 1. rewrite nth_snoc_new.
      rewrite nth_snoc_old by lia. reflexivity.
    + rewrite !nth_snoc_old by lia. apply Hrec; lia.
  - destruct (Nat.eq_dec i k) as [-> | Hne].
    + rewrite <- La at 1. rewrite nth_snoc_new.
      rewrite nth_snoc_old by lia. reflexivity.
    + rewrite !nth_snoc_old by lia. apply Hrec; lia.
Qed.

Lemma loop_body_step (df : DataFrame) (k : nat) (st : columns) :
  (1 <= k < length df)%nat ->
  pair_upto df 7 (6 / 7) k (ATL_pre st) (ATL_post st) ->
  pair_upto df 42 (41 / 42) k (CTL_pre st) (CTL_post st) ->
  exists st', loop_body df k st = Some st' /\
    pair_upto df 7 (6 / 7) (S k) (ATL_pre st') (ATL_post st') /\
    pair_upto df 42 (41 / 42) (S k) (CTL_pre st') (CTL_post st').
Proof.
  intros Hk HA HC.
  destruct (iloc_row df k) as [cur Hcur]; [lia|].
  destruct (iloc_row df (k - 1)) as [prev Hprev]; [lia|].
  pose proof (delta_t_days_Delta df k cur prev Hcur Hprev) as HD.
  assert (Tcur : tss cur = tss_ df k)
    by (unfold tss_; unfold iloc in Hcur; now rewrite Hcur).
  assert (Tprev : tss prev = tss_ df (k - 1))
    by (unfold tss_; unfold iloc in Hprev; now rewrite Hprev).
  pose proof HA as (LAb & LAa & _). pose proof HC as (LCb & LCa & _).
  unfold loop_body. rewrite Hcur, Hprev. cbn [bind].
  rewrite (iloc_nth (ATL_pre st)), (iloc_nth (ATL_post st)),
          (iloc_nth (CTL_pre st)), (iloc_nth (CTL_post st)) by lia.
  cbn [bind]. eexists. split; [reflexivity|].
  cbn [ATL_pre ATL_post CTL_pre CTL_post].
  rewrite HD, Tcur, Tprev.
  split; apply pair_upto_snoc; assumption || lia.
Qed.

Lemma loop_run (df : DataFrame) (m k : nat) (st : columns) :
  (1 <= k)%nat -> (k + m <= length df)%nat ->
  pair_upto df 7 (6 / 7) k (ATL_pre st) (ATL_post st) ->
  pair_upto df 42 (41 / 42) k (CTL_pre st) (CTL_post st) ->
  exists out, for_each (seq k m) (loop_body df) st = Some out /\
    pair_upto df 7 (6 / 7) (k + m) (ATL_pre out) (ATL_post out) /\
    pair_upto df 42 (41 / 42) (k + m) (CTL_pre out) (CTL_post out).
Proof.
  revert k st. induction m as [|m IH]; intros k st Hk Hlen HA HC.
  - exists st. rewrite Nat.add_0_r. cbn. auto.
  - destruct (loop_body_step df k st) as (st' & E & HA' & HC'); [lia|assumption..|].
    destruct (IH (S k) st') as (out & Eo & HAo & HCo); [lia|lia|assumption..|].
    exists out. cbn [seq for_each]. rewrite E. cbn [bind].
    replace (k + S m)%nat with (S k + m)%nat by lia. auto.
Qed.

(** The calculator returns on every non-empty frame, and its columns are
    the specified series. *)
Lemma calc_ctl_atl_load_series (df : DataFrame) :
  df <> [] -> exists out, calc_ctl_atl df = Some out /\ load_series df out.
Proof.
  intros Hne. destruct df as [|first rest]; [congruence|].
  unfold calc_ctl_atl. cbn [iloc nth_error bind].
  destruct (loop_run (first :: rest) (length (first :: rest) - 1) 1
              {| ATL_pre := [0]; CTL_pre := [0];
                 ATL_post := [tss first / 7 + 0];
                 CTL_post := [tss first / 42 + 0] |})
    as (out & E & HA & HC).
  - lia.
  - cbn [length]. lia.
  - unfold pair_upto. cbn. repeat split; try lia. unfold tss_. cbn. lra.
  - unfold pair_upto. cbn. repeat split; try lia. unfold tss_. cbn. lra.
  - exists out. split; [exact E|].
    replace (1 + (length (first :: rest) - 1))%nat
      with (length (first :: rest)) in HA, HC by (cbn [length]; lia).
    split; assumption.
Qed.

Lemma ewma_after_before (df : DataFrame) (tau base : R)
    (before after : list R) :
  ewma_pair df tau base before after ->
  forall i : nat, (i < length df)%nat ->
    nth i after 0 = nth i before 0 + tss_ df i / tau.
Proof.
  intros (_ & _ & B0 & A0 & Hrec) i. induction i as [|i IH]; intros Hi.
  - rewrite A0, B0. lra.
  - destruct (Hrec (S i)) as [Hb Ha]; [lia|].
    replace (S i - 1)%nat with i in Hb, Ha by lia.
    rewrite Ha, Hb, IH by lia. lra.
Qed.

Lemma ewma_after_nonneg (df : DataFrame) (tau base : R)
    (before after : list R) :
  0 < tau ->
  nonneg_tss df ->
  ewma_pair df tau base before after ->
  forall i : nat, (i < length df)%nat -> 0 <= nth i after 0.
Proof.
  intros Htau Hpos (_ & _ & _ & A0 & Hrec).
  assert (Hterm : forall j, (j < length df)%nat -> 0 <= tss_ df j / tau).
  { intros j Hj. apply Rmult_le_pos; [now apply Hpos|].
    left. now apply Rinv_0_lt_compat. }
  intros i. induction i as [|i IH]; intros Hi.
  - rewrite A0. now apply Hterm.
  - destruct (Hrec (S i)) as [_ Ha]; [lia|].
    replace (S i - 1)%nat with i in Ha by lia. rewrite Ha.
    apply Rplus_le_le_0_compat; [now apply Hterm|].
    apply Rmult_le_pos; [apply IH; lia|].
    left. unfold Rpower. apply exp_pos.
Qed.

Lemma two_runs_nonneg : nonneg_tss two_runs.
Proof.
  intros i Hi. cbn in Hi.
  destruct i as [|[|i]]; [unfold tss_; cbn; lra | unfold tss_; cbn; lra | lia].
Qed.

(** C1.  On every non-empty frame [calc_ctl_atl] returns, and the four
    columns it adds are exactly the specified series:
    [fast_before[0] = 0], [fast_after[0] = tss_0 / 7], and for [i >= 1],
    with [Delta_i = (t_i - t_{i-1}) / 86400],
    [fast_before[i] = (fast_before[i-1] + tss_{i-1} / 7) * (6/7)^Delta_i] and
    [fast_after[i] = tss_i / 7 + fast_after[i-1] * (6/7)^Delta_i]; the slow
    series likewise with divisor 42 and base 41/42.  For a frame of length
    one the columns are [[0]], [[0]], [[tss_0 / 7]] and [[tss_0 / 42]].
    Chronological order is not needed for the equations to hold. *)
Theorem calc_ctl_atl_recurrence (df : DataFrame) :
  df <> [] ->
  exists out : columns,
    calc_ctl_atl df = Some out /\
    load_series df out /\
    (length df = 1%nat ->
       ATL_pre out = [0] /\ CTL_pre out = [0] /\
       ATL_post out = [tss_ df 0 / 7] /\ CTL_post out = [tss_ df 0 / 42]).
Proof.
  intros Hne. destruct (calc_ctl_atl_load_series df Hne) as (out & E & HL).
  exists out. split; [exact E|]. split; [exact HL|].
  intros Hone.
  destruct HL as [(LAb & LAa & Ab0 & Aa0 & _) (LCb & LCa & Cb0 & Ca0 & _)].
  rewrite Hone in LAb, LAa, LCb, LCa.
  destruct out as [ab cb aa ca]. cbn [ATL_pre CTL_pre ATL_post CTL_post] in *.
  destruct ab as [|? [|? ?]]; try discriminate LAb.
  destruct cb as [|? [|? ?]]; try discriminate LCb.
  destruct aa as [|? [|? ?]]; try discriminate LAa.
  destruct ca as [|? [|? ?]]; try discriminate LCa.
  cbn [nth] in Ab0, Aa0, Cb0, Ca0. subst. repeat split; reflexivity.
Qed.

Lemma calc_ctl_atl_recurrence_witness :
  exists out : columns,
    calc_ctl_atl two_runs = Some out /\
    load_series two_runs out /\
    (length two_runs = 1%nat ->
       ATL_pre out = [0] /\ CTL_pre out = [0] /\
       ATL_post out = [tss_ two_runs 0 / 7] /\
       CTL_post out = [tss_ two_runs 0 / 42]).
Proof. apply (calc_ctl_atl_recurrence two_runs). discriminate. Defined.

(** C8.  When every stress score of a non-empty frame is non-negative, the
    calculator returns and no entry of [ATL_post] (fast_after) or of
    [CTL_post] (slow_after) is negative, whatever the order of the
    timestamps: a decay factor is positive for every gap. *)
Theorem calc_ctl_atl_after_nonneg (df : DataFrame) :
  df <> [] ->
  nonneg_tss df ->
  exists out : columns,
    calc_ctl_atl df = Some out /\
    forall i : nat, (i < length df)%nat ->
      0 <= nth i (ATL_post out) 0 /\ 0 <= nth i (CTL_post out) 0.
Proof.
  intros Hne Hpos.
  destruct (calc_ctl_atl_load_series df Hne) as (out & E & HA & HC).
  exists out. split; [exact E|]. intros i Hi. split.
  - apply (ewma_after_nonneg df 7 (6 / 7) (ATL_pre out)); auto. lra.
  - apply (ewma_after_nonneg df 42 (41 / 42) (CTL_pre out)); auto. lra.
Qed.

Lemma calc_ctl_atl_after_nonneg_witness :
  exists out : columns,
    calc_ctl_atl two_runs = Some out /\
    forall i : nat, (i < length two_runs)%nat ->
      0 <= nth i (ATL_post out) 0 /\ 0 <= nth i (CTL_post out) 0.
Proof.
  apply (calc_ctl_atl_after_nonneg two_runs).
  - discriminate.
  - exact two_runs_nonneg.
Defined.

(** C10.  On every non-empty frame, each sample's after value is its before
    value plus the activity's own contribution:
    [ATL_post[i] = ATL_pre[i] + tss_i / 7] and
    [CTL_post[i] = CTL_pre[i] + tss_i / 42], for every index [i]. *)
Theorem calc_ctl_atl_after_is_before_plus_own (df : DataFrame) :
  df <> [] ->
  exists out : columns,
    calc_ctl_atl df = Some out /\
    forall i : nat, (i < length df)%nat ->
      nth i (ATL_post out) 0 = nth i (ATL_pre out) 0 + tss_ df i / 7 /\
      nth i (CTL_post out) 0 = nth i (CTL_pre out) 0 + tss_ df i / 42.
Proof.
  intros Hne. destruct (calc_ctl_atl_load_series df Hne) as (out & E & HA & HC).
  exists out. split; [exact E|]. intros i Hi. split.
  - now apply (ewma_after_before df 7 (6 / 7)).
  - now apply (ewma_after_before df 42 (41 / 42)).
Qed.

Lemma calc_ctl_atl_after_is_before_plus_own_witness :
  exists out : columns,
    calc_ctl_atl two_runs = Some out /\
    forall i : nat, (i < length two_runs)%nat ->
      nth i (ATL_post out) 0 = nth i (ATL_pre out) 0 + tss_ two_runs i / 7 /\
      nth i (CTL_post out) 0 = nth i (CTL_pre out) 0 + tss_ two_runs i / 42.
Proof.
  apply (calc_ctl_atl_after_is_before_plus_own two_runs). discriminate.
Defined.

End TrainingLoadSpec.

(** ** The weekly log *)

Module WeeklyLogSpec.

Import Calendar WeeklyLog.
Local Open Scope string_scope.
Local Open Scope Z_scope.

Lemma In_count_from (n : nat) (lo k : Z) :
  lo <= k < lo + Z.of_nat n -> In k (count_from lo n).
Proof.
  revert lo. induction n as [|n IH]; intros lo Hk; [lia|].
  cbn [count_from]. destruct (Z.eq_dec lo k) as [->|Hne]; [now left|].
  right. apply IH. lia.
Qed.

Lemma In_range (lo hi k : Z) : lo <= k < hi -> In k (range lo hi).
Proof. intros Hk. unfold range. apply In_count_from. lia. Qed.

Lemma range_three (lo : Z) : range lo (lo + 3) = [lo; lo + 1; lo + 2].
Proof.
  unfold range. replace (lo + 3 - lo) with 3 by lia.
  change (Z.to_nat 3) with 3%nat. cbn [count_from].
  now rewrite <- Z.add_assoc.
Qed.

Lemma january_weeks_all :
  forallb january_weeks_ok (range 1 10000) = true.
Proof. vm_cast_no_check (eq_refl true). Qed.

Lemma january_weeks_year (y : Z) :
  1 <= y <= 9999 -> january_weeks_ok y = true.
Proof.
  intros Hy. pose proof january_weeks_all as H.
  rewrite forallb_forall in H. apply H, In_range. lia.
Qed.

Lemma week_label_of_month_day (d e : date) (m dd m' dd' : Z) :
  month_day_is d m dd = true -> month_day_is e m' dd' = true ->
  week_label d e
  = if m =? m'
    then (month_abbr m ++ " " ++ Z_to_string dd) ++ "-" ++ Z_to_string dd'
    else (month_abbr m ++ " " ++ Z_to_string dd) ++ "-"
         ++ month_abbr m' ++ " " ++ Z_to_string dd'.
Proof.
  unfold month_day_is. intros Hd He.
  apply andb_true_iff in Hd, He. destruct Hd as [Hm Hdd], He as [Hm' Hdd'].
  apply Z.eqb_eq in Hm, Hdd, Hm', Hdd'.
  unfold week_label, strftime_b_d, strftime_d.
  rewrite Hm, Hdd, Hm', Hdd'. reflexivity.
Qed.

Section Summary.

Context {float : Type} {PF : PyFloat float} {U : Util float}.

(** The two texts of the summary that depend on the dates and on the
    moving times only. *)
Lemma create_week_sum_texts (df_week : DataFrame float) (date_start : date)
    (s : WeekSum) :
  create_week_sum df_week date_start = Some s ->
  exists date_end : date,
    date_add date_start 6 = Some date_end /\
    date_str s = week_label date_start date_end /\
    time_str s = moving_time_display (zsum (map moving_time_s df_week)).
Proof.
  unfold create_week_sum. destruct (date_add date_start 6) as [date_end|];
    [|discriminate].
  cbn [bind]. intros [= <-]. exists date_end. cbn [date_str time_str].
  split; [reflexivity|]. split.
  - unfold week_label. now destruct (month date_start =? month date_end).
  - unfold moving_time_display, floor_truediv.
    destruct (zsum (map moving_time_s df_week) <? 30); [reflexivity|].
    set (m := zsum (map moving_time_s df_week)).
    replace (m - m / 3600 * 3600) with (m mod 3600)
      by (rewrite Z.mod_eq; lia).
    reflexivity.
Qed.

Lemma create_week_sum_returns (df_week : DataFrame float)
    (date_start date_end : date) :
  date_add date_start 6 = Some date_end ->
  exists s : WeekSum, create_week_sum df_week date_start = Some s.
Proof. unfold create_week_sum. intros ->. cbn [bind]. eauto. Qed.

Lemma date_add_value (d days d' : date) :
  date_add d days = Some d' -> d' = d + days /\ 1 <= d' <= MAXORDINAL.
Proof.
  unfold date_add. destruct (0 <? d + days) eqn:E1; [|discriminate].
  destruct (d + days <=? MAXORDINAL) eqn:E2; [|discriminate].
  cbn. intros [= <-]. apply Z.ltb_lt in E1. apply Z.leb_le in E2. lia.
Qed.

(** C2, on the code.  The summed moving time of the week is shown as
    ["--:--"] below 30 seconds, and 3661 seconds as ["1h1m"]; but 7199
    seconds are shown as ["1h60m"]: the minutes are rounded after the hours
    were floored, and a round-up to 60 is not carried into the hours. *)
Theorem create_week_sum_7199_is_1h60m (df_week : DataFrame float)
    (date_start : date) (s : WeekSum) :
  create_week_sum df_week date_start = Some s ->
  (zsum (map moving_time_s df_week) < 30 -> time_str s = "--:--") /\
  (zsum (map moving_time_s df_week) = 3661 -> time_str s = "1h1m") /\
  (zsum (map moving_time_s df_week) = 7199 -> time_str s = "1h60m").
Proof.
  intros H. destruct (create_week_sum_texts _ _ _ H) as (_ & _ & _ & ->).
  repeat split.
  - intros Hlt. unfold moving_time_display.
    apply Z.ltb_lt in Hlt. now rewrite Hlt.
  - intros ->. reflexivity.
  - intros ->. reflexivity.
Qed.

(** C9.  The label of a week starts with the month and day of its first
    date; the end date is the start plus six days; the month is repeated
    before the end day exactly when the two dates lie in different months.
    In every year the week from 29 January is labelled ["Jan 29-Feb 4"] and
    the week from 25 January ["Jan 25-31"]. *)
Theorem create_week_sum_week_label (df_week : DataFrame float) :
  (forall (date_start : date) (s : WeekSum),
     create_week_sum df_week date_start = Some s ->
     let date_end := date_start + 6 in
     (month date_start <> month date_end ->
        date_str s
        = strftime_b_d date_start ++ "-" ++ strftime_b_d date_end) /\
     (month date_start = month date_end ->
        date_str s
        = strftime_b_d date_start ++ "-" ++ strftime_d date_end)) /\
  (forall y : Z, 1 <= y <= 9999 ->
     (exists (d : date) (s : WeekSum),
        mkdate y 1 29 = Some d /\
        create_week_sum df_week d = Some s /\
        date_str s = "Jan 29-Feb 4") /\
     (exists (d : date) (s : WeekSum),
        mkdate y 1 25 = Some d /\
        create_week_sum df_week d = Some s /\
        date_str s = "Jan 25-31")).
Proof.
  split.
  - intros date_start s H date_end.
    destruct (create_week_sum_texts _ _ _ H) as (e & He & -> & _).
    apply date_add_value in He. destruct He as [-> _].
    fold date_end. unfold week_label. split; intros Hm.
    + apply Z.eqb_neq in Hm. now rewrite Hm.
    + apply Z.eqb_eq in Hm. now rewrite Hm.
  - intros y Hy. pose proof (january_weeks_year y Hy) as Hok.
    unfold january_weeks_ok in Hok.
    destruct (mkdate y 1 29) as [d29|]; [|discriminate].
    destruct (mkdate y 1 25) as [d25|]; [|discriminate].
    destruct (date_add d29 6) as [e29|] eqn:E29; [|discriminate].
    destruct (date_add d25 6) as [e25|] eqn:E25; [|discriminate].
    apply andb_true_iff in Hok. destruct Hok as [Hok H25e].
    apply andb_true_iff in Hok. destruct Hok as [Hok H25].
    apply andb_true_iff in Hok. destruct Hok as [H29 H29e].
    split.
    + destruct (create_week_sum_returns df_week d29 e29 E29) as [s Hs].
      exists d29, s. repeat split; [exact Hs|].
      destruct (create_week_sum_texts _ _ _ Hs) as (e & He & -> & _).
      rewrite E29 in He. injection He as <-.
      now rewrite (week_label_of_month_day _ _ _ _ _ _ H29 H29e).
    + destruct (create_week_sum_returns df_week d25 e25 E25) as [s Hs].
      exists d25, s. repeat split; [exact Hs|].
      destruct (create_week_sum_texts _ _ _ Hs) as (e & He & -> & _).
      rewrite E25 in He. injection He as <-.
      now rewrite (week_label_of_month_day _ _ _ _ _ _ H25 H25e).
Qed.

End Summary.

Section Weeks.

Context {float : Type} {PF : PyFloat float} {U : Util float}.

Lemma date_sub_value (d days d' : date) :
  date_sub d days = Some d' -> d' = d - days.
Proof.
  unfold date_sub. intros H. apply date_add_value in H. lia.
Qed.

Lemma weekday_monday (today k : Z) :
  weekday (today - weekday today - 7 * k) = 0.
Proof.
  unfold weekday.
  pose proof (Z.div_mod (today + 6) 7 ltac:(lia)) as E.
  replace (today - (today + 6) mod 7 - 7 * k + 6)
    with (((today + 6) / 7 - k) * 7) by lia.
  apply Z_mod_mult.
Qed.

Lemma weekday_range (d : date) : 0 <= weekday d <= 6.
Proof. unfold weekday. pose proof (Z.mod_pos_bound (d + 6) 7). lia. Qed.

(** Week [i] is the Monday-to-Monday range that ends [i - 1] weeks before
    the Monday of today's week, and its rows are those recorded in it. *)
Lemma week_bucket_bounds (today : date) (df : DataFrame float) (i : Z)
    (b : WeekBucket float) :
  week_bucket today df i = Some b ->
  mon_latest b = today - weekday today - 7 * (i - 1) /\
  mon_last b = today - weekday today - 7 * i /\
  forall r : row float,
    in_bucket b r <-> In r df /\ in_week b (recorded_date r).
Proof.
  unfold week_bucket.
  destruct (date_sub today (weekday today + 7 * (i - 1))) as [hi|] eqn:Ehi;
    [|discriminate].
  cbn [bind].
  destruct (date_sub today (weekday today + 7 * (i - 1) + 7)) as [lo|] eqn:Elo;
    [|discriminate].
  cbn [bind]. intros [= <-].
  apply date_sub_value in Ehi, Elo.
  unfold in_bucket, in_week. cbn [mon_latest mon_last df_week].
  split; [lia|]. split; [lia|].
  intros r. rewrite filter_In, andb_true_iff, Z.ltb_lt, Z.geb_le. tauto.
Qed.

Lemma week_bucket_monday (today : date) (df : DataFrame float) (i : Z)
    (b : WeekBucket float) :
  week_bucket today df i = Some b ->
  weekday (mon_last b) = 0 /\ mon_latest b = mon_last b + 7.
Proof.
  intros H. destruct (week_bucket_bounds _ _ _ _ H) as (Hhi & Hlo & _).
  rewrite Hhi, Hlo. split; [apply weekday_monday | lia].
Qed.

(** A click on 'Add more weeks' appends the rows of three consecutive
    weeks. *)
Lemma update_calendar_rows (n_clicks : option Z)
    (children : option (list (CalendarRow float))) (today : date)
    (df : DataFrame float) (rows : list (CalendarRow float)) :
  update_calendar n_clicks children today df = Some rows ->
  let n := or_default n_clicks 0 in
  exists (b0 b1 b2 : WeekBucket float) (r0 r1 r2 : CalendarRow float),
    (week_bucket today df (3 * n) = Some b0 /\
     calendar_row (3 * n) b0 = Some r0) /\
    (week_bucket today df (3 * n + 1) = Some b1 /\
     calendar_row (3 * n + 1) b1 = Some r1) /\
    (week_bucket today df (3 * n + 2) = Some b2 /\
     calendar_row (3 * n + 2) b2 = Some r2) /\
    rows = (or_default children [] ++ [r0; r1; r2])%list.
Proof.
  intros H n. unfold update_calendar in H. fold n in H.
  replace (3 * (n + 1)) with (3 * n + 3) in H by lia.
  rewrite range_three in H. cbn [for_each] in H.
  destruct (week_bucket today df (3 * n)) as [b0|] eqn:W0; [|discriminate].
  cbn [bind] in H.
  destruct (calendar_row (3 * n) b0) as [r0|] eqn:R0; [|discriminate].
  cbn [bind] in H.
  destruct (week_bucket today df (3 * n + 1)) as [b1|] eqn:W1; [|discriminate].
  cbn [bind] in H.
  destruct (calendar_row (3 * n + 1) b1) as [r1|] eqn:R1; [|discriminate].
  cbn [bind] in H.
  destruct (week_bucket today df (3 * n + 2)) as [b2|] eqn:W2; [|discriminate].
  cbn [bind] in H.
  destruct (calendar_row (3 * n + 2) b2) as [r2|] eqn:R2; [|discriminate].
  cbn [bind] in H. injection H as <-.
  exists b0, b1, b2, r0, r1, r2. repeat split; try assumption.
  now rewrite <- !app_assoc.
Qed.

Lemma consecutive_weeks_partition (today : date) (df : DataFrame float) (i : Z)
    (b0 b1 b2 : WeekBucket float) :
  week_bucket today df i = Some b0 ->
  week_bucket today df (i + 1) = Some b1 ->
  week_bucket today df (i + 2) = Some b2 ->
  week_partition df b0 b1 b2.
Proof.
  intros H0 H1 H2.
  destruct (week_bucket_bounds _ _ _ _ H0) as (Hhi0 & Hlo0 & In0).
  destruct (week_bucket_bounds _ _ _ _ H1) as (Hhi1 & Hlo1 & In1).
  destruct (week_bucket_bounds _ _ _ _ H2) as (Hhi2 & Hlo2 & In2).
  unfold week_partition. split.
  { intros b [<-|[<-|[<-|[]]]]; (split; [assumption|]);
      eapply week_bucket_monday; eassumption. }
  split; [lia|]. split; [lia|]. split; [lia|].
  assert (Hdis : none_shared (in_week b0) (in_week b1) (in_week b2)).
  { intros d. unfold in_week. lia. }
  assert (Hcov : forall d : date, mon_last b2 <= d < mon_latest b0 ->
            exactly_one_of (in_week b0 d) (in_week b1 d) (in_week b2 d)).
  { intros d Hd. unfold exactly_one_of, in_week. lia. }
  split; [exact Hdis|]. split; [exact Hcov|]. split.
  - intros r. destruct (Hdis (recorded_date r)) as (D01 & D02 & D12).
    rewrite In0, In1, In2. tauto.
  - intros r Hr Hd. specialize (Hcov _ Hd).
    unfold exactly_one_of in *. rewrite In0, In1, In2. tauto.
Qed.

(** The windows follow one another 21 days apart. *)
Lemma week_bucket_next_window (today : date) (df : DataFrame float) (i : Z)
    (b b' : WeekBucket float) :
  week_bucket today df i = Some b ->
  week_bucket today df (i + 3) = Some b' ->
  mon_last b' = mon_last b - 21 /\ mon_latest b' = mon_latest b - 21.
Proof.
  intros H H'.
  destruct (week_bucket_bounds _ _ _ _ H) as (Hhi & Hlo & _).
  destruct (week_bucket_bounds _ _ _ _ H') as (Hhi' & Hlo' & _).
  lia.
Qed.

(** C3.  The rows that a click appends are those of three weeks, and the
    three weeks partition the window: a row is in a week exactly when
    [mon_last <= date < mon_latest]; each week runs from a Monday to the
    next Monday, exclusive; consecutive weeks abut and the three span 21
    days; no date and no row belongs to two of them; and every row recorded
    within the 21 days belongs to exactly one. *)
Theorem update_calendar_week_partition (n_clicks : option Z)
    (children : option (list (CalendarRow float))) (today : date)
    (df : DataFrame float) (rows : list (CalendarRow float)) :
  update_calendar n_clicks children today df = Some rows ->
  let n := or_default n_clicks 0 in
  exists (b0 b1 b2 : WeekBucket float) (r0 r1 r2 : CalendarRow float),
    (week_bucket today df (3 * n) = Some b0 /\
     calendar_row (3 * n) b0 = Some r0) /\
    (week_bucket today df (3 * n + 1) = Some b1 /\
     calendar_row (3 * n + 1) b1 = Some r1) /\
    (week_bucket today df (3 * n + 2) = Some b2 /\
     calendar_row (3 * n + 2) b2 = Some r2) /\
    rows = (or_default children [] ++ [r0; r1; r2])%list /\
    week_partition df b0 b1 b2.
Proof.
  intros H n.
  destruct (update_calendar_rows _ _ _ _ _ H)
    as (b0 & b1 & b2 & r0 & r1 & r2 & W0 & W1 & W2 & Hrows).
  fold n in W0, W1, W2.
  exists b0, b1, b2, r0, r1, r2.
  split; [exact W0|]. split; [exact W1|]. split; [exact W2|].
  split; [exact Hrows|].
  apply (consecutive_weeks_partition today df (3 * n)).
  - apply W0.
  - apply W1.
  - apply W2.
Qed.

(** C4, on the code.  The first row of the first window (no click yet) is
    not the last complete week but today's own week: its range starts on
    the Monday of today's week and ends on the next Monday, so it holds
    today and every row recorded today.  (That each further window lies
    21 days further back is [week_bucket_next_window].) *)
Theorem update_calendar_first_week_holds_today (n_clicks : option Z)
    (children : option (list (CalendarRow float))) (today : date)
    (df : DataFrame float) (rows : list (CalendarRow float)) :
  or_default n_clicks 0 = 0 ->
  update_calendar n_clicks children today df = Some rows ->
  exists (b0 : WeekBucket float) (r0 : CalendarRow float)
         (older : list (CalendarRow float)),
    week_bucket today df 0 = Some b0 /\
    calendar_row 0 b0 = Some r0 /\
    rows = (or_default children [] ++ r0 :: older)%list /\
    mon_last b0 = today - weekday today /\
    mon_latest b0 = today - weekday today + 7 /\
    in_week b0 today /\
    (forall r : row float,
       In r df -> recorded_date r = today -> in_bucket b0 r).
Proof.
  intros Hn H.
  destruct (update_calendar_rows _ _ _ _ _ H)
    as (b0 & b1 & b2 & r0 & r1 & r2 & [W0 R0] & _ & _ & Hrows).
  rewrite Hn in W0, R0. change (3 * 0) with 0 in W0, R0.
  exists b0, r0, [r1; r2].
  destruct (week_bucket_bounds _ _ _ _ W0) as (Hhi & Hlo & Hin).
  pose proof (weekday_range today) as Hwd.
  assert (Htoday : in_week b0 today) by (unfold in_week; lia).
  split; [exact W0|]. split; [exact R0|]. split; [exact Hrows|].
  split; [lia|]. split; [lia|]. split; [exact Htoday|].
  intros r Hr Hd. apply Hin. split; [exact Hr|]. now rewrite Hd.
Qed.

End Weeks.

(** *** Strings *)

Lemma append_assoc (a b c : string) : (a ++ b) ++ c = a ++ b ++ c.
Proof. induction a as [|ch a IH]; cbn; [reflexivity | now rewrite IH]. Qed.

(** The text before the first separator contains none, so it is found
    again in front of a separator. *)
Lemma split_head_idem (sep : ascii) (txt rest : string) :
  split_head sep (split_head sep txt ++ String sep rest) = split_head sep txt.
Proof.
  induction txt as [|c txt IH]; cbn.
  - now rewrite Ascii.eqb_refl.
  - destruct (Ascii.eqb c sep) eqn:E; cbn.
    + now rewrite Ascii.eqb_refl.
    + now rewrite E, IH.
Qed.

Lemma split_head_app (sep : ascii) (s rest : string) :
  split_head sep s = s ->
  split_head sep (s ++ rest) = s ++ split_head sep rest.
Proof.
  induction s as [|c s IH]; cbn; [reflexivity|].
  destruct (Ascii.eqb c sep); [discriminate|].
  intros [= H]. now rewrite IH.
Qed.

Lemma href_href (txt rest : string) : href (href txt ++ rest) = href txt.
Proof.
  unfold href. rewrite append_assoc. cbn [append].
  now rewrite split_head_idem.
Qed.

Lemma string_of_uint_no_gt (d : Decimal.uint) :
  split_head ">" (NilEmpty.string_of_uint d) = NilEmpty.string_of_uint d.
Proof. induction d; cbn; now rewrite ?IHd. Qed.

Lemma Z_to_string_no_gt (n : Z) :
  split_head ">" (Z_to_string n) = Z_to_string n.
Proof.
  unfold Z_to_string, NilZero.string_of_int, NilZero.string_of_uint.
  destruct (Z.to_int n) as [d|d]; destruct d; cbn;
    now rewrite ?string_of_uint_no_gt.
Qed.

Lemma href_anchor (i : Z) (rest : string) : href (anchor i ++ rest) = anchor i.
Proof.
  unfold href, anchor. rewrite !append_assoc.
  rewrite (split_head_app ">" "<a href=") by reflexivity.
  rewrite (split_head_app ">" dquote) by reflexivity.
  rewrite (split_head_app ">" "/dash-saved-activity/") by reflexivity.
  rewrite (split_head_app ">" (Z_to_string i)) by apply Z_to_string_no_gt.
  rewrite (split_head_app ">" dquote) by reflexivity.
  change (split_head ">" (">" ++ rest)) with EmptyString.
  rewrite !append_assoc. reflexivity.
Qed.

(** *** Lists *)

Lemma map_opt_length {A B : Type} (f : A -> option B) (l : list A)
    (l' : list B) :
  map_opt f l = Some l' -> length l' = length l.
Proof.
  revert l'. induction l as [|a l IH]; cbn [map_opt]; intros l'.
  - now intros [= <-].
  - destruct (f a) as [b|]; [|discriminate]. cbn [bind].
    destruct (map_opt f l) as [bs|]; [|discriminate]. cbn [bind].
    intros [= <-]. cbn [length]. f_equal. now apply IH.
Qed.

Lemma map_opt_map {A B : Type} (f : A -> option B) (g : A -> B) (l : list A) :
  (forall a : A, In a l -> f a = Some (g a)) ->
  map_opt f l = Some (map g l).
Proof.
  induction l as [|a l IH]; intros H; [reflexivity|].
  cbn [map_opt map]. rewrite (H a) by now left. cbn [bind].
  rewrite IH by (intros a' Ha'; apply H; now right). reflexivity.
Qed.

Lemma shown_text {V W : Type} (lbl : V -> string) (sz : V -> W)
    (hrefs : list string) (vals : list V) :
  map (fun '(a, shown) => a ++ fst shown)
      (combine hrefs (map (fun v => (lbl v, sz v)) vals))
  = map (fun '(a, v) => a ++ lbl v) (combine hrefs vals).
Proof.
  revert vals. induction hrefs as [|a hrefs IH]; intros [|v vals];
    cbn [map combine fst]; try reflexivity.
  now rewrite IH.
Qed.

Lemma shown_size {V W : Type} (lbl : V -> string) (sz : V -> W)
    (vals : list V) :
  map snd (map (fun v => (lbl v, sz v)) vals) = map sz vals.
Proof. rewrite map_map. reflexivity. Qed.

(** Relabelling keeps the anchors of the labels that find a partner. *)
Lemma anchors_kept {V : Type} (txts : list string) (items : list (string * V)) :
  map href (map (fun '(a, shown) => a ++ fst shown)
                (combine (map href txts) items))
  = firstn (length items) (map href txts).
Proof.
  revert items. induction txts as [|t txts IH]; intros [|it items];
    cbn [map combine length firstn]; try reflexivity.
  now rewrite href_href, IH.
Qed.

Section Remapper.

Context {float : Type} {PF : PyFloat float} {U : Util float}.

Lemma remap_trace_other (tr : Trace float) (bubble_type : string) :
  ~ In bubble_type bubble_options -> remap_trace tr bubble_type = Some tr.
Proof.
  intros Hout. unfold remap_trace.
  assert (H : forall m, In m bubble_options ->
            (bubble_type =? m)%string = false).
  { intros m Hm. apply String.eqb_neq. intros ->. now apply Hout. }
  rewrite !H by (cbn; tauto). reflexivity.
Qed.

(** The remapper shows the view of the metric, computed from [customdata]
    alone, behind the anchors of the current labels. *)
Lemma remap_trace_view (tr : Trace float) (bubble_type : string) :
  In bubble_type bubble_options ->
  remap_trace tr bubble_type
  = (view <- metric_view (customdata tr) bubble_type ;;
     Some (with_view tr view)).
Proof.
  intros [<-|[<-|[<-|[<-|[]]]]]; unfold remap_trace, metric_view;
    cbn [String.eqb Ascii.eqb Bool.eqb andb].
  - destruct (map_opt _ (customdata tr)) as [vals|]; [|reflexivity].
    cbn [bind]. unfold with_view. cbn [fst snd].
    now rewrite shown_text, shown_size.
  - destruct (map_opt _ (customdata tr)) as [strs|]; [|reflexivity].
    cbn [bind].
    destruct (map_opt string_to_seconds strs) as [vals|]; [|reflexivity].
    cbn [bind]. unfold with_view. cbn [fst snd].
    now rewrite shown_text, shown_size.
  - destruct (map_opt _ (customdata tr)) as [vals|]; [|reflexivity].
    cbn [bind]. unfold with_view. cbn [fst snd].
    now rewrite shown_text, shown_size.
  - destruct (map_opt _ (customdata tr)) as [vals|]; [|reflexivity].
    cbn [bind]. unfold with_view. cbn [fst snd].
    now rewrite shown_text, shown_size.
Qed.

Lemma metric_view_length (cd : list (list (pyval float))) (bubble_type : string)
    (view : list (string * pyval float) * float) :
  metric_view cd bubble_type = Some view -> length (fst view) = length cd.
Proof.
  unfold metric_view.
  destruct (bubble_type =? "Time")%string.
  { destruct (map_opt _ cd) as [strs|] eqn:E1; [|discriminate]. cbn [bind].
    destruct (map_opt string_to_seconds strs) as [vals|] eqn:E2;
      [|discriminate].
    cbn [bind]. intros [= <-]. cbn [fst]. rewrite length_map.
    apply map_opt_length in E1, E2. congruence. }
  destruct (bubble_type =? "Distance")%string.
  { destruct (map_opt _ cd) as [vals|] eqn:E1; [|discriminate]. cbn [bind].
    intros [= <-]. cbn [fst]. rewrite length_map.
    now apply map_opt_length in E1. }
  destruct (bubble_type =? "Elevation")%string.
  { destruct (map_opt _ cd) as [vals|] eqn:E1; [|discriminate]. cbn [bind].
    intros [= <-]. cbn [fst]. rewrite length_map.
    now apply map_opt_length in E1. }
  destruct (bubble_type =? "TSS")%string; [|discriminate].
  destruct (map_opt _ cd) as [vals|] eqn:E1; [|discriminate]. cbn [bind].
  intros [= <-]. cbn [fst]. rewrite length_map.
  now apply map_opt_length in E1.
Qed.

Lemma with_view_source (tr : Trace float)
    (view : list (string * pyval float) * float) :
  length (fst view) = length (customdata tr) ->
  source (with_view tr view) = source tr.
Proof.
  intros Hlen. unfold source, with_view.
  cbn [x y name mode marker sizemode customdata text].
  f_equal. rewrite anchors_kept, Hlen, firstn_firstn, Nat.min_id.
  reflexivity.
Qed.

Lemma with_view_same (tr1 tr2 : Trace float)
    (view : list (string * pyval float) * float) :
  source tr1 = source tr2 ->
  length (fst view) = length (customdata tr1) ->
  with_view tr1 view = with_view tr2 view.
Proof.
  unfold source. intros [= Hx Hy Hn Hm Hs Hc Ha] Hlen.
  unfold with_view. rewrite Hx, Hy, Hn, Hm, Hs, Hc.
  rewrite (combine_firstn_r (map href (text tr1))),
          (combine_firstn_r (map href (text tr2))).
  rewrite Hlen, Hc in *. now rewrite Ha.
Qed.

Lemma remap_trace_source (tr tr' : Trace float) (bubble_type : string) :
  remap_trace tr bubble_type = Some tr' -> source tr' = source tr.
Proof.
  destruct (in_dec string_dec bubble_type bubble_options) as [Hin|Hout].
  - rewrite (remap_trace_view _ _ Hin).
    destruct (metric_view (customdata tr) bubble_type) as [view|] eqn:E;
      [|discriminate].
    cbn [bind]. intros [= <-]. apply with_view_source.
    now apply metric_view_length in E.
  - rewrite (remap_trace_other _ _ Hout). now intros [= <-].
Qed.

Lemma remap_trace_same (tr1 tr2 : Trace float) (bubble_type : string) :
  In bubble_type bubble_options ->
  source tr1 = source tr2 ->
  remap_trace tr1 bubble_type = remap_trace tr2 bubble_type.
Proof.
  intros Hin Hsrc. rewrite !(remap_trace_view _ _ Hin).
  assert (Hc : customdata tr1 = customdata tr2)
    by (unfold source in Hsrc; congruence).
  rewrite <- Hc.
  destruct (metric_view (customdata tr1) bubble_type) as [view|] eqn:E;
    [|reflexivity].
  cbn [bind]. f_equal. apply with_view_same; [exact Hsrc|].
  now apply metric_view_length in E.
Qed.

Lemma update_week_cal_inv (fig fig' : Figure float) (bubble_type : string) :
  update_week_cal fig bubble_type = Some fig' ->
  exists (tr tr' : Trace float) (others : list (Trace float)),
    data fig = tr :: others /\
    remap_trace tr bubble_type = Some tr' /\
    fig' = {| data := tr' :: others;
              layout := {| annotations := annotations (layout fig);
                           transition_duration := Some 1000 |} |}.
Proof.
  unfold update_week_cal.
  destruct (data fig) as [|tr others]; [discriminate|].
  cbn [iloc nth_error bind tl].
  destruct (remap_trace tr bubble_type) as [tr'|] eqn:E; [|discriminate].
  cbn [bind]. intros [= <-]. exists tr, tr', others. auto.
Qed.

(** A remap to a metric of the selector does not depend on what was
    displayed before. *)
Lemma update_after_update (g f1 : Figure float) (m' m : string) :
  In m bubble_options ->
  update_week_cal g m' = Some f1 ->
  update_week_cal f1 m = update_week_cal g m.
Proof.
  intros Hin H.
  destruct (update_week_cal_inv _ _ _ H) as (tr & tr' & others & Hd & Hr & ->).
  unfold update_week_cal. rewrite Hd.
  cbn [data layout annotations iloc nth_error bind tl].
  now rewrite (remap_trace_same tr' tr m Hin (remap_trace_source _ _ _ Hr)).
Qed.

Lemma map_opt_compose {A B C : Type} (f : A -> option B) (g : B -> option C)
    (h : A -> C) (l : list A) (l' : list B) :
  (forall (a : A) (b : B), f a = Some b -> g b = Some (h a)) ->
  map_opt f l = Some l' ->
  map_opt g l' = Some (map h l).
Proof.
  intros Hfg. revert l'. induction l as [|a l IH]; cbn [map_opt]; intros l'.
  - now intros [= <-].
  - destruct (f a) as [b|] eqn:Ea; [|discriminate]. cbn [bind].
    destruct (map_opt f l) as [bs|]; [|discriminate]. cbn [bind].
    intros [= <-]. cbn [map_opt map].
    rewrite (Hfg a b Ea). cbn [bind]. now rewrite (IH bs eq_refl).
Qed.

Lemma combine_map_same {A B C : Type} (f : A -> B) (g : A -> C) (l : list A) :
  combine (map f l) (map g l) = map (fun a => (f a, g a)) l.
Proof. induction l as [|a l IH]; cbn; [reflexivity | now rewrite IH]. Qed.

Lemma customdata_row_miles (r : row float) (cdata : list (pyval float)) :
  customdata_row r = Some cdata ->
  (c <- iloc cdata 4 ;; py_float c) = Some (miles r).
Proof.
  unfold customdata_row.
  destruct (seconds_to_string _); [|discriminate]. cbn [bind].
  destruct (speed_to_pace _); [|discriminate]. cbn [bind].
  destruct (speed_to_pace _); [|discriminate]. cbn [bind].
  now intros [= <-].
Qed.

Lemma relabel_rendered {W : Type} (lbl : float -> string) (sz : float -> W)
    (df_week : DataFrame float) :
  map (fun '(a, shown) => a ++ fst shown)
      (combine
         (map href (map (fun r => anchor (id r) ++ lbl (miles r)) df_week))
         (map (fun d => (lbl d, sz d)) (map miles df_week)))
  = map (fun r => anchor (id r) ++ lbl (miles r)) df_week.
Proof.
  induction df_week as [|r df_week IH]; cbn [map combine fst];
    [reflexivity|].
  now rewrite href_anchor, IH.
Qed.

(** The figure as first rendered already shows the view of 'Distance' in
    its labels; its marker sizes are the distances in metres. *)
Lemma create_week_cal_distance (df_week : DataFrame float) (f0 : Figure float) :
  create_week_cal df_week = Some f0 ->
  sizes f0 = [map (fun r => VFloat (distance_m r)) df_week] /\
  exists fD : Figure float,
    update_week_cal f0 "Distance" = Some fD /\
    labels fD = labels f0 /\
    sizes fD = [map (fun r => VFloat (miles r)) df_week].
Proof.
  unfold create_week_cal.
  destruct (map_opt customdata_row df_week) as [cd|] eqn:Ecd; [|discriminate].
  cbn [bind]. intros [= <-]. split; [reflexivity|].
  unfold update_week_cal. cbn [data iloc nth_error bind tl].
  rewrite remap_trace_view by (cbn; tauto). cbn [customdata].
  unfold metric_view. cbn [String.eqb Ascii.eqb Bool.eqb andb].
  rewrite (map_opt_compose customdata_row _ miles df_week cd
             customdata_row_miles Ecd).
  cbn [bind]. eexists. split; [reflexivity|].
  unfold labels, sizes, with_view.
  cbn [data map text marker size fst snd].
  split; f_equal.
  - apply (relabel_rendered (fun d => format_f 1 d ++ "</a>") VFloat).
  - rewrite shown_size, map_map. reflexivity.
Qed.

(** C5.  For a metric name outside the selector's values, the remapper
    returns (no exception) on every figure that has its trace, and the
    traces come back as they were: marker sizes, sizeref and label texts
    are untouched. *)
Theorem update_week_cal_unknown_metric (fig : Figure float)
    (bubble_type : string) :
  ~ In bubble_type bubble_options ->
  data fig <> [] ->
  exists fig' : Figure float,
    update_week_cal fig bubble_type = Some fig' /\
    data fig' = data fig /\
    labels fig' = labels fig /\
    sizes fig' = sizes fig /\
    map (fun tr => sizeref (marker tr)) (data fig')
    = map (fun tr => sizeref (marker tr)) (data fig).
Proof.
  intros Hout Hne. unfold update_week_cal, labels, sizes.
  destruct (data fig) as [|tr others] eqn:Hd; [congruence|].
  cbn [iloc nth_error bind tl].
  rewrite (remap_trace_other _ _ Hout). cbn [bind].
  eexists. split; [reflexivity|]. cbn [data]. repeat split.
Qed.

(** C6, as the code has it.  Once the remapper has produced a figure for
    a metric [m] of the selector, switching to any other metric and back to
    [m] gives that figure again, sizes, sizeref and labels included.  From
    the figure as [create_week_cal] renders it, switching away and back to
    'Distance' gives the same labels, and the marker sizes in miles. *)
Theorem update_week_cal_round_trip :
  (forall (g f f' : Figure float) (m m' : string),
     In m bubble_options ->
     update_week_cal g m = Some f ->
     update_week_cal f m' = Some f' ->
     update_week_cal f' m = Some f) /\
  (forall (df_week : DataFrame float) (f0 f1 : Figure float) (m' : string),
     create_week_cal df_week = Some f0 ->
     update_week_cal f0 m' = Some f1 ->
     exists f2 : Figure float,
       update_week_cal f1 "Distance" = Some f2 /\
       labels f2 = labels f0 /\
       sizes f2 = [map (fun r => VFloat (miles r)) df_week]).
Proof.
  split.
  - intros g f f' m m' Hm Hf Hf'.
    rewrite (update_after_update f f' m' m Hm Hf').
    now rewrite (update_after_update g f m m Hm Hf).
  - intros df_week f0 f1 m' H0 H1.
    destruct (create_week_cal_distance _ _ H0) as (_ & fD & HD & Hl & Hs).
    exists fD. split; [|now split].
    rewrite (update_after_update f0 f1 m' "Distance") by (cbn; tauto || exact H1).
    exact HD.
Qed.

(** C7.  Remapping to 'Distance' twice gives what remapping once gives.
    The remapped trace is the 'Distance' view of its [customdata] behind
    the anchors of its labels, so two figures that differ only in what
    they display are remapped to the same figure. *)
Theorem update_week_cal_distance_idempotent :
  (forall fig : Figure float,
     (f <- update_week_cal fig "Distance" ;; update_week_cal f "Distance")
     = update_week_cal fig "Distance") /\
  (forall tr : Trace float,
     remap_trace tr "Distance"
     = (view <- metric_view (customdata tr) "Distance" ;;
        Some (with_view tr view))) /\
  (forall (tr1 tr2 : Trace float) (others : list (Trace float))
          (l1 l2 : Layout),
     source tr1 = source tr2 ->
     annotations l1 = annotations l2 ->
     update_week_cal {| data := tr1 :: others; layout := l1 |} "Distance"
     = update_week_cal {| data := tr2 :: others; layout := l2 |} "Distance").
Proof.
  assert (Hin : In "Distance" bubble_options) by (cbn; tauto).
  split; [|split].
  - intros fig. destruct (update_week_cal fig "Distance") as [f|] eqn:E;
      [|reflexivity].
    cbn [bind]. now rewrite (update_after_update fig f "Distance" "Distance" Hin E).
  - intros tr. now apply remap_trace_view.
  - intros tr1 tr2 others l1 l2 Hsrc Hann. unfold update_week_cal.
    cbn [data layout iloc nth_error bind tl].
    now rewrite (remap_trace_same tr1 tr2 "Distance" Hin Hsrc), Hann.
Qed.

End Remapper.

(** *** The statements on the sample week *)

Import Exact.

Lemma create_week_sum_7199_is_1h60m_witness :
  exists s : WeekSum,
    create_week_sum [run_prev] 737787 = Some s /\ time_str s = "1h60m".
Proof.
  assert (Hs : is_some (create_week_sum [run_prev] 737787) = true)
    by (vm_compute; reflexivity).
  destruct (create_week_sum [run_prev] 737787) as [s|] eqn:E;
    [|discriminate Hs].
  exists s. split; [reflexivity|].
  apply (create_week_sum_7199_is_1h60m [run_prev] 737787 s E).
  reflexivity.
Defined.

Lemma create_week_sum_week_label_witness :
  exists (d : date) (s : WeekSum),
    mkdate 2024 1 29 = Some d /\
    create_week_sum sample_df d = Some s /\
    date_str s = "Jan 29-Feb 4".
Proof.
  apply (proj2 (create_week_sum_week_label sample_df) 2024). lia.
Defined.

Lemma update_calendar_week_partition_witness :
  exists (rows : list (CalendarRow Q)) (b0 b1 b2 : WeekBucket Q),
    update_calendar None None today_wed sample_df = Some rows /\
    week_bucket today_wed sample_df 0 = Some b0 /\
    week_bucket today_wed sample_df 1 = Some b1 /\
    week_bucket today_wed sample_df 2 = Some b2 /\
    week_partition sample_df b0 b1 b2.
Proof.
  assert (Hs : is_some (update_calendar None None today_wed sample_df) = true)
    by (vm_compute; reflexivity).
  destruct (update_calendar None None today_wed sample_df) as [rows|] eqn:E;
    [|discriminate Hs].
  destruct (update_calendar_week_partition None None today_wed sample_df rows E)
    as (b0 & b1 & b2 & r0 & r1 & r2 & [W0 _] & [W1 _] & [W2 _] & _ & P).
  exists rows, b0, b1, b2.
  split; [reflexivity|]. split; [exact W0|]. split; [exact W1|].
  split; [exact W2 | exact P].
Defined.

Lemma update_calendar_first_week_holds_today_witness :
  exists (rows : list (CalendarRow Q)) (b0 : WeekBucket Q),
    update_calendar None None today_wed sample_df = Some rows /\
    week_bucket today_wed sample_df 0 = Some b0 /\
    in_week b0 today_wed /\
    in_bucket b0 run_wed.
Proof.
  assert (Hs : is_some (update_calendar None None today_wed sample_df) = true)
    by (vm_compute; reflexivity).
  destruct (update_calendar None None today_wed sample_df) as [rows|] eqn:E;
    [|discriminate Hs].
  destruct (update_calendar_first_week_holds_today None None today_wed sample_df
              rows eq_refl E)
    as (b0 & r0 & older & W0 & _ & _ & _ & _ & Htoday & Hin).
  exists rows, b0.
  split; [reflexivity|]. split; [exact W0|]. split; [exact Htoday|].
  apply Hin; [cbn; tauto | reflexivity].
Defined.

Lemma update_week_cal_unknown_metric_witness :
  exists fig' : Figure Q,
    update_week_cal rendered_week "Pace" = Some fig' /\
    data fig' = data rendered_week /\
    labels fig' = labels rendered_week /\
    sizes fig' = sizes rendered_week /\
    map (fun tr => sizeref (marker tr)) (data fig')
    = map (fun tr => sizeref (marker tr)) (data rendered_week).
Proof.
  apply (update_week_cal_unknown_metric rendered_week "Pace").
  - cbn. intros [H|[H|[H|[H|[]]]]]; discriminate H.
  - discriminate.
Defined.

(** C6, as stated, fails on the figure as first rendered: after
    'Elevation' and back to 'Distance' the labels are the same, but the
    marker sizes are the miles of [customdata], not the metres that
    [create_week_cal] had put there. *)
Lemma round_trip_from_rendered_changes_sizes :
  create_week_cal [run_mon; run_wed] = Some rendered_week /\
  update_week_cal rendered_week "Elevation" = Some elevation_week /\
  update_week_cal elevation_week "Distance" = Some distance_week /\
  labels distance_week = labels rendered_week /\
  sizes rendered_week = [[VFloat (8000 # 1)%Q; VFloat (10000 # 1)%Q]] /\
  sizes distance_week
  = [[VFloat (400000 # 80467)%Q; VFloat (500000 # 80467)%Q]] /\
  sizes distance_week <> sizes rendered_week.
Proof.
  split; [vm_compute; reflexivity|].
  split; [vm_compute; reflexivity|].
  split; [vm_compute; reflexivity|].
  split; [vm_compute; reflexivity|].
  split; [vm_compute; reflexivity|].
  split; [vm_compute; reflexivity|].
  vm_compute. intros H. discriminate H.
Qed.

Lemma update_week_cal_round_trip_witness :
  exists fE : Figure Q,
    update_week_cal time_week "Elevation" = Some fE /\
    update_week_cal fE "Time" = Some time_week.
Proof.
  assert (Hs : is_some (update_week_cal time_week "Elevation") = true)
    by (vm_compute; reflexivity).
  destruct (update_week_cal time_week "Elevation") as [fE|] eqn:E;
    [|discriminate Hs].
  exists fE. split; [reflexivity|].
  apply (proj1 update_week_cal_round_trip rendered_week time_week fE
           "Time" "Elevation").
  - cbn. tauto.
  - vm_compute. reflexivity.
  - exact E.
Defined.

Lemma update_week_cal_distance_idempotent_witness :
  update_week_cal time_week "Distance"
  = update_week_cal rendered_week "Distance".
Proof.
  apply (proj2 (proj2 update_week_cal_distance_idempotent)).
  - vm_compute. reflexivity.
  - reflexivity.
Defined.

End WeeklyLogSpec.

(** * Further properties *)

(** ** The training-load calculator *)

Module TrainingLoadMore.

Import TrainingLoad TrainingLoadSpec.
Local Open Scope R_scope.

(** A decay factor is at most one for a non-negative gap, and at most the
    base for a gap of a day or more. *)
Lemma decay_le_1 (base gap : R) :
  0 < base < 1 -> 0 <= gap -> Rpower base gap <= 1.
Proof.
  intros [Hb0 Hb1] Hgap. unfold Rpower. rewrite <- exp_0.
  assert (Hln : ln base < 0) by (rewrite <- ln_1; now apply ln_increasing).
  destruct (Req_dec (gap * ln base) 0) as [->|Hne]; [apply Rle_refl|].
  left. apply exp_increasing. nra.
Qed.

Lemma decay_le_base (base gap : R) :
  0 < base < 1 -> 1 <= gap -> Rpower base gap <= base.
Proof.
  intros [Hb0 Hb1] Hgap. unfold Rpower.
  rewrite <- (exp_ln base Hb0) at 2.
  assert (Hln : ln base < 0) by (rewrite <- ln_1; now apply ln_increasing).
  destruct (Req_dec (gap * ln base) (ln base)) as [->|Hne]; [apply Rle_refl|].
  left. apply exp_increasing. nra.
Qed.

Lemma decay_pos (base gap : R) : 0 < Rpower base gap.
Proof. unfold Rpower. apply exp_pos. Qed.

Section Pair.

Variables (df : DataFrame) (tau base : R) (before after : list R).
Hypothesis Hpair : ewma_pair df tau base before after.

Lemma ewma_before_decayed (i : nat) :
  (1 <= i < length df)%nat ->
  nth i before 0 = nth (i - 1) after 0 * Rpower base (Delta df i).
Proof.
  intros Hi. destruct Hpair as (_ & _ & _ & _ & Hrec).
  destruct (Hrec i Hi) as [Hb _]. rewrite Hb.
  rewrite (ewma_after_before df tau base before after Hpair (i - 1)) by lia.
  reflexivity.
Qed.

Lemma ewma_before_nonneg (i : nat) :
  0 < tau -> nonneg_tss df -> (i < length df)%nat -> 0 <= nth i before 0.
Proof.
  intros Htau Hpos Hi. destruct i as [|i].
  - destruct Hpair as (_ & _ & B0 & _). rewrite B0. apply Rle_refl.
  - rewrite ewma_before_decayed by lia.
    apply Rmult_le_pos; [|left; apply decay_pos].
    apply (ewma_after_nonneg df tau base before after); auto. lia.
Qed.

Lemma ewma_before_le_previous_after (i : nat) :
  0 < tau -> 0 < base < 1 -> nonneg_tss df -> chronological df ->
  (1 <= i < length df)%nat ->
  nth i before 0 <= nth (i - 1) after 0.
Proof.
  intros Htau Hbase Hpos Hchron Hi. rewrite ewma_before_decayed by exact Hi.
  assert (Ha : 0 <= nth (i - 1) after 0)
    by (apply (ewma_after_nonneg df tau base before after); auto; lia).
  assert (Hd : Rpower base (Delta df i) <= 1).
  { apply decay_le_1; [exact Hbase|]. unfold Delta.
    specialize (Hchron i Hi). lra. }
  nra.
Qed.

Lemma ewma_after_le_max (M : R) (i : nat) :
  1 < tau -> base = (tau - 1) / tau ->
  nonneg_tss df -> tss_at_most M df -> daily_apart df ->
  (i < length df)%nat ->
  nth i after 0 <= M.
Proof.
  intros Htau Hbase Hpos HM Hday.
  assert (Hb : 0 < base < 1).
  { subst base. split.
    - apply Rdiv_lt_0_compat; lra.
    - apply (Rmult_lt_reg_r tau); [lra|]. field_simplify; lra. }
  assert (HM0 : forall j, (j < length df)%nat -> 0 <= M).
  { intros j Hj. apply Rle_trans with (tss_ df j); auto. }
  assert (Hterm : forall j, (j < length df)%nat -> tss_ df j / tau <= M / tau).
  { intros j Hj. apply Rmult_le_compat_r; [|now apply HM].
    left. apply Rinv_0_lt_compat. lra. }
  destruct Hpair as (_ & _ & _ & A0 & Hrec).
  induction i as [|i IH]; intros Hi.
  - rewrite A0. apply Rle_trans with (M / tau); [now apply Hterm|].
    specialize (HM0 0%nat Hi).
    apply (Rmult_le_reg_r tau); [lra|]. field_simplify; [|lra]. nra.
  - destruct (Hrec (S i)) as [_ Ha]; [lia|].
    replace (S i - 1)%nat with i in Ha by lia. rewrite Ha.
    assert (Hprev : nth i after 0 <= M) by (apply IH; lia).
    assert (Hprev0 : 0 <= nth i after 0)
      by (apply (ewma_after_nonneg df tau base before after); auto; lra || lia).
    assert (Hd : Rpower base (Delta df (S i)) <= base)
      by (apply decay_le_base; [exact Hb | apply Hday; lia]).
    pose proof (decay_pos base (Delta df (S i))) as Hd0.
    specialize (Hterm (S i) Hi). specialize (HM0 (S i) Hi).
    apply Rle_trans with (M / tau + M * base); [nra|].
    subst base. right. field. lra.
Qed.

End Pair.

(** The series over a frame and over an extension of it agree on the
    frame. *)
Lemma tss_app (df more : DataFrame) (i : nat) :
  (i < length df)%nat -> tss_ (df ++ more) i = tss_ df i.
Proof. intros Hi. unfold tss_. now rewrite nth_error_app1. Qed.

Lemma Delta_app (df more : DataFrame) (i : nat) :
  (i < length df)%nat -> Delta (df ++ more) i = Delta df i.
Proof.
  intros Hi. unfold Delta, t_. now rewrite !nth_error_app1 by lia.
Qed.

Lemma ewma_pair_prefix (df more : DataFrame) (tau base : R)
    (before after before' after' : list R) :
  ewma_pair df tau base before after ->
  ewma_pair (df ++ more) tau base before' after' ->
  firstn (length df) before' = before /\ firstn (length df) after' = after.
Proof.
  intros (Lb & La & B0 & A0 & Hrec) (Lb' & La' & B0' & A0' & Hrec').
  rewrite length_app in Lb', La', Hrec'.
  assert (Hnth : forall i, (i < length df)%nat ->
            nth i before' 0 = nth i before 0 /\ nth i after' 0 = nth i after 0).
  { induction i as [|i IH]; intros Hi.
    - rewrite B0, B0', A0, A0', tss_app by exact Hi. auto.
    - destruct (Hrec (S i)) as [Hb Ha]; [lia|].
      destruct (Hrec' (S i)) as [Hb' Ha']; [lia|].
      replace (S i - 1)%nat with i in * by lia.
      destruct IH as [IHb IHa]; [lia|].
      rewrite Hb, Ha, Hb', Ha', IHb, IHa.
      rewrite !tss_app, Delta_app by lia. auto. }
  split; apply (nth_ext _ _ 0 0).
  - rewrite length_firstn. lia.
  - intros i Hi. rewrite length_firstn in Hi. rewrite nth_firstn.
    destruct (Nat.ltb_spec i (length df)); [|lia]. now apply Hnth.
  - rewrite length_firstn. lia.
  - intros i Hi. rewrite length_firstn in Hi. rewrite nth_firstn.
    destruct (Nat.ltb_spec i (length df)); [|lia]. now apply Hnth.
Qed.


(** X2.  Where an activity has the timestamp of the one before it, nothing
    decays: the before values accumulate the previous contribution and the
    after values the current one. *)
Theorem calc_ctl_atl_same_instant (df : DataFrame) :
  df <> [] ->
  exists out : columns,
    calc_ctl_atl df = Some out /\
    forall i : nat, (1 <= i < length df)%nat ->
      t_ df i = t_ df (i - 1) ->
      nth i (ATL_pre out) 0
      = nth (i - 1) (ATL_pre out) 0 + tss_ df (i - 1) / 7 /\
      nth i (ATL_post out) 0
      = tss_ df i / 7 + nth (i - 1) (ATL_post out) 0 /\
      nth i (CTL_pre out) 0
      = nth (i - 1) (CTL_pre out) 0 + tss_ df (i - 1) / 42 /\
      nth i (CTL_post out) 0
      = tss_ df i / 42 + nth (i - 1) (CTL_post out) 0.
Proof.
  intros Hne. destruct (calc_ctl_atl_load_series df Hne) as (out & E & HA & HC).
  exists out. split; [exact E|]. intros i Hi Ht.
  assert (HD : Delta df i = 0) by (unfold Delta; rewrite Ht; lra).
  destruct HA as (_ & _ & _ & _ & HrecA). destruct HC as (_ & _ & _ & _ & HrecC).
  destruct (HrecA i Hi) as [Ab Aa]. destruct (HrecC i Hi) as [Cb Ca].
  rewrite HD, Rpower_O in Ab, Aa, Cb, Ca by lra.
  rewrite Ab, Aa, Cb, Ca. repeat split; lra.
Qed.

Lemma double_session_same_instant :
  forall i : nat, (1 <= i < length double_session)%nat ->
    t_ double_session i = t_ double_session (i - 1).
Proof.
  intros i Hi. cbn [length double_session] in Hi.
  assert (i = 1%nat) as -> by lia. reflexivity.
Qed.

Lemma calc_ctl_atl_same_instant_witness :
  exists out : columns,
    calc_ctl_atl double_session = Some out /\
    nth 1 (ATL_pre out) 0 = nth 0 (ATL_pre out) 0 + tss_ double_session 0 / 7.
Proof.
  destruct (calc_ctl_atl_same_instant double_session) as (out & E & H);
    [discriminate|].
  exists out. split; [exact E|].
  apply (H 1%nat); [cbn; lia | reflexivity].
Defined.

(** X3.  From the second activity on, each before value is the previous
    after value, decayed over the gap:
    [ATL_pre[i] = ATL_post[i-1] * (6/7)^Delta_i] and
    [CTL_pre[i] = CTL_post[i-1] * (41/42)^Delta_i]. *)
Theorem calc_ctl_atl_before_is_decayed_after (df : DataFrame) :
  df <> [] ->
  exists out : columns,
    calc_ctl_atl df = Some out /\
    forall i : nat, (1 <= i < length df)%nat ->
      nth i (ATL_pre out) 0
      = nth (i - 1) (ATL_post out) 0 * Rpower (6 / 7) (Delta df i) /\
      nth i (CTL_pre out) 0
      = nth (i - 1) (CTL_post out) 0 * Rpower (41 / 42) (Delta df i).
Proof.
  intros Hne. destruct (calc_ctl_atl_load_series df Hne) as (out & E & HA & HC).
  exists out. split; [exact E|]. intros i Hi. split.
  - now apply (ewma_before_decayed df 7 (6 / 7) _ _ HA).
  - now apply (ewma_before_decayed df 42 (41 / 42) _ _ HC).
Qed.

Lemma calc_ctl_atl_before_is_decayed_after_witness :
  exists out : columns,
    calc_ctl_atl two_runs = Some out /\
    forall i : nat, (1 <= i < length two_runs)%nat ->
      nth i (ATL_pre out) 0
      = nth (i - 1) (ATL_post out) 0 * Rpower (6 / 7) (Delta two_runs i) /\
      nth i (CTL_pre out) 0
      = nth (i - 1) (CTL_post out) 0 * Rpower (41 / 42) (Delta two_runs i).
Proof.
  apply (calc_ctl_atl_before_is_decayed_after two_runs). discriminate.
Defined.

(** X4.  On a chronological frame with non-negative stress scores the
    load only decays between activities: every before value is
    non-negative and at most the after value of the activity before. *)
Theorem calc_ctl_atl_decays_between (df : DataFrame) :
  df <> [] -> chronological df -> nonneg_tss df ->
  exists out : columns,
    calc_ctl_atl df = Some out /\
    forall i : nat, (1 <= i < length df)%nat ->
      0 <= nth i (ATL_pre out) 0 <= nth (i - 1) (ATL_post out) 0 /\
      0 <= nth i (CTL_pre out) 0 <= nth (i - 1) (CTL_post out) 0.
Proof.
  intros Hne Hchron Hpos.
  destruct (calc_ctl_atl_load_series df Hne) as (out & E & HA & HC).
  exists out. split; [exact E|]. intros i Hi. repeat split.
  - apply (ewma_before_nonneg df 7 (6 / 7) _ _ HA); auto; lra || lia.
  - apply (ewma_before_le_previous_after df 7 (6 / 7) _ _ HA); auto; lra.
  - apply (ewma_before_nonneg df 42 (41 / 42) _ _ HC); auto; lra || lia.
  - apply (ewma_before_le_previous_after df 42 (41 / 42) _ _ HC); auto; lra.
Qed.

Lemma two_runs_Delta :
  forall i : nat, (1 <= i < length two_runs)%nat -> Delta two_runs i = 3 / 2.
Proof.
  intros i Hi. cbn [length two_runs] in Hi.
  assert (i = 1%nat) as -> by lia.
  unfold Delta, t_. cbn. lra.
Qed.

Lemma two_runs_chronological : chronological two_runs.
Proof.
  intros i Hi. pose proof (two_runs_Delta i Hi) as H. unfold Delta in H. lra.
Qed.

Lemma two_runs_daily_apart : daily_apart two_runs.
Proof. intros i Hi. rewrite (two_runs_Delta i Hi). lra. Qed.

Lemma two_runs_at_most_70 : tss_at_most 70 two_runs.
Proof.
  intros i Hi. cbn in Hi.
  destruct i as [|[|i]]; [unfold tss_; cbn; lra | unfold tss_; cbn; lra | lia].
Qed.

Lemma calc_ctl_atl_decays_between_witness :
  exists out : columns,
    calc_ctl_atl two_runs = Some out /\
    forall i : nat, (1 <= i < length two_runs)%nat ->
      0 <= nth i (ATL_pre out) 0 <= nth (i - 1) (ATL_post out) 0 /\
      0 <= nth i (CTL_pre out) 0 <= nth (i - 1) (CTL_post out) 0.
Proof.
  apply (calc_ctl_atl_decays_between two_runs).
  - discriminate.
  - exact two_runs_chronological.
  - exact two_runs_nonneg.
Defined.

(** X5.  When consecutive activities are at least one day apart and the
    stress scores lie between 0 and [M], no after value exceeds [M]: the
    weights [1/7] and [6/7] (and [1/42] and [41/42]) add up to one. *)
Theorem calc_ctl_atl_bounded_by_max (df : DataFrame) (M : R) :
  df <> [] -> daily_apart df -> nonneg_tss df -> tss_at_most M df ->
  exists out : columns,
    calc_ctl_atl df = Some out /\
    forall i : nat, (i < length df)%nat ->
      nth i (ATL_post out) 0 <= M /\ nth i (CTL_post out) 0 <= M.
Proof.
  intros Hne Hday Hpos HM.
  destruct (calc_ctl_atl_load_series df Hne) as (out & E & HA & HC).
  exists out. split; [exact E|]. intros i Hi. split.
  - apply (ewma_after_le_max df 7 (6 / 7) _ _ HA); auto; lra.
  - apply (ewma_after_le_max df 42 (41 / 42) _ _ HC); auto; lra.
Qed.

Lemma calc_ctl_atl_bounded_by_max_witness :
  exists out : columns,
    calc_ctl_atl two_runs = Some out /\
    forall i : nat, (i < length two_runs)%nat ->
      nth i (ATL_post out) 0 <= 70 /\ nth i (CTL_post out) 0 <= 70.
Proof.
  apply (calc_ctl_atl_bounded_by_max two_runs 70).
  - discriminate.
  - exact two_runs_daily_apart.
  - exact two_runs_nonneg.
  - exact two_runs_at_most_70.
Defined.

(** X6.  Later activities do not change earlier samples: the columns
    computed for a frame are the first entries of the columns computed for
    any extension of the frame. *)
Theorem calc_ctl_atl_prefix (df more : DataFrame) :
  df <> [] ->
  exists out out' : columns,
    calc_ctl_atl df = Some out /\
    calc_ctl_atl (df ++ more) = Some out' /\
    firstn (length df) (ATL_pre out') = ATL_pre out /\
    firstn (length df) (ATL_post out') = ATL_post out /\
    firstn (length df) (CTL_pre out') = CTL_pre out /\
    firstn (length df) (CTL_post out') = CTL_post out.
Proof.
  intros Hne.
  destruct (calc_ctl_atl_load_series df Hne) as (out & E & HA & HC).
  destruct (calc_ctl_atl_load_series (df ++ more)) as (out' & E' & HA' & HC').
  { destruct df; [congruence | discriminate]. }
  exists out, out'. split; [exact E|]. split; [exact E'|].
  destruct (ewma_pair_prefix _ _ _ _ _ _ _ _ HA HA') as [H1 H2].
  destruct (ewma_pair_prefix _ _ _ _ _ _ _ _ HC HC') as [H3 H4].
  auto.
Qed.

Lemma calc_ctl_atl_prefix_witness :
  exists out out' : columns,
    calc_ctl_atl two_runs = Some out /\
    calc_ctl_atl (two_runs ++ double_session) = Some out' /\
    firstn (length two_runs) (ATL_pre out') = ATL_pre out /\
    firstn (length two_runs) (ATL_post out') = ATL_post out /\
    firstn (length two_runs) (CTL_pre out') = CTL_pre out /\
    firstn (length two_runs) (CTL_post out') = CTL_post out.
Proof. apply (calc_ctl_atl_prefix two_runs double_session). discriminate. Defined.

(** Decaying a weighted sum further moves it to the later timestamp. *)
Lemma weighted_sum_decay (df : DataFrame) (tau base : R) (i i' k : nat) :
  weighted_sum df tau base i k * Rpower base ((t_ df i' - t_ df i) / 86400)
  = weighted_sum df tau base i' k.
Proof.
  induction k as [|j IH]; cbn [weighted_sum]; [lra|].
  rewrite Rmult_plus_distr_r, IH, Rmult_assoc, <- Rpower_plus.
  do 3 f_equal. lra.
Qed.

Lemma ewma_pair_weighted_sum (df : DataFrame) (tau base : R)
    (before after : list R) (i : nat) :
  0 < base -> ewma_pair df tau base before after -> (i < length df)%nat ->
  nth i before 0 = weighted_sum df tau base i i /\
  nth i after 0 = weighted_sum df tau base i (S i).
Proof.
  intros Hbase Hpair. pose proof Hpair as (_ & _ & B0 & A0 & Hrec).
  assert (Hafter : forall j, (j < length df)%nat ->
            nth j after 0 = weighted_sum df tau base j (S j)).
  { induction j as [|j IH]; intros Hj.
    - rewrite A0. cbn [weighted_sum].
      replace ((t_ df 0 - t_ df 0) / 86400) with 0 by lra.
      rewrite Rpower_O by exact Hbase. lra.
    - destruct (Hrec (S j)) as [_ Ha]; [lia|].
      replace (S j - 1)%nat with j in Ha by lia.
      rewrite Ha, IH by lia. unfold Delta.
      replace (S j - 1)%nat with j by lia.
      rewrite weighted_sum_decay.
      cbn [weighted_sum].
      replace ((t_ df (S j) - t_ df (S j)) / 86400) with 0 by lra.
      rewrite Rpower_O by exact Hbase. lra. }
  intros Hi. split; [|now apply Hafter].
  destruct i as [|i]; [exact B0|].
  rewrite (ewma_before_decayed df tau base before after Hpair) by lia.
  replace (S i - 1)%nat with i by lia.
  rewrite Hafter by lia. unfold Delta.
  replace (S i - 1)%nat with i by lia.
  apply weighted_sum_decay.
Qed.

(** X27.  The closed form of the recurrences: the after value of an
    activity is the sum of the stress scores up to and including its own,
    each divided by the time constant and decayed by the time elapsed
    since its own activity; the before value is the same sum without the
    activity's own score.  The values depend on the elapsed times only, not
    on how the activities in between divide them. *)
Theorem calc_ctl_atl_weighted_sum (df : DataFrame) :
  df <> [] ->
  exists out : columns,
    calc_ctl_atl df = Some out /\
    forall i : nat, (i < length df)%nat ->
      nth i (ATL_pre out) 0 = weighted_sum df 7 (6 / 7) i i /\
      nth i (ATL_post out) 0 = weighted_sum df 7 (6 / 7) i (S i) /\
      nth i (CTL_pre out) 0 = weighted_sum df 42 (41 / 42) i i /\
      nth i (CTL_post out) 0 = weighted_sum df 42 (41 / 42) i (S i).
Proof.
  intros Hne. destruct (calc_ctl_atl_load_series df Hne) as (out & E & HA & HC).
  exists out. split; [exact E|]. intros i Hi.
  assert (H7 : 0 < 6 / 7) by lra. assert (H42 : 0 < 41 / 42) by lra.
  destruct (ewma_pair_weighted_sum df 7 (6 / 7) _ _ i H7 HA Hi) as [H1 H2].
  destruct (ewma_pair_weighted_sum df 42 (41 / 42) _ _ i H42 HC Hi) as [H3 H4].
  auto.
Qed.

Lemma calc_ctl_atl_weighted_sum_witness :
  exists out : columns,
    calc_ctl_atl two_runs = Some out /\
    nth 1 (ATL_post out) 0
    = 70 / 7 * Rpower (6 / 7) (3 / 2) + 42 / 7.
Proof.
  destruct (calc_ctl_atl_weighted_sum two_runs) as (out & E & H);
    [discriminate|].
  exists out. split; [exact E|].
  destruct (H 1%nat) as (_ & -> & _); [cbn; lia|].
  cbn [weighted_sum]. unfold tss_, t_. cbn [nth_error two_runs tss recorded value].
  replace ((IZR 1609632000000000000 / 1000000000
            - IZR 1609502400000000000 / 1000000000) / 86400)
    with (3 / 2) by lra.
  replace ((IZR 1609632000000000000 / 1000000000
            - IZR 1609632000000000000 / 1000000000) / 86400)
    with 0 by lra.
  rewrite Rpower_O by lra. lra.
Defined.

(** *** Sorting *)

Lemma insert_by_perm {A : Type} (key : A -> Z) (a : A) (l : list A) :
  Permutation (a :: l) (insert_by key a l).
Proof.
  induction l as [|b l IH]; cbn [insert_by]; [reflexivity|].
  destruct (key a <=? key b)%Z; [reflexivity|].
  rewrite perm_swap. now apply perm_skip.
Qed.

Lemma insert_by_sorted {A : Type} (key : A -> Z) (a : A) (l : list A) :
  Sorted (fun u v => (key u <= key v)%Z) l ->
  Sorted (fun u v => (key u <= key v)%Z) (insert_by key a l).
Proof.
  induction l as [|b l IH]; intros Hs; cbn [insert_by].
  - repeat constructor.
  - destruct (key a <=? key b)%Z eqn:E.
    + apply Z.leb_le in E. constructor; [exact Hs | now constructor].
    + apply Z.leb_gt in E. apply Sorted_inv in Hs. destruct Hs as [Hs Hd].
      constructor; [now apply IH|].
      destruct l as [|c l]; cbn [insert_by].
      * constructor. lia.
      * destruct (key a <=? key c)%Z; constructor; [lia|].
        now inversion Hd.
Qed.

Lemma sample_pandas_laws : PandasLaws sample_pandas.
Proof.
  split; intros A key l; cbn [sort_values sample_pandas];
    unfold insertion_sort.
  - induction l as [|a l IH]; cbn [fold_right]; [reflexivity|].
    rewrite <- insert_by_perm. now apply perm_skip.
  - induction l as [|a l IH]; cbn [fold_right]; [constructor|].
    now apply insert_by_sorted.
Qed.

Lemma Sorted_adjacent {A : Type} (R : A -> A -> Prop) (l : list A) (d : A)
    (i : nat) :
  Sorted R l -> (S i < length l)%nat -> R (nth i l d) (nth (S i) l d).
Proof.
  intros Hs. revert i. induction Hs as [|a l Hs IH Hd]; intros i Hi;
    [cbn in Hi; lia|].
  destruct i as [|i].
  - destruct Hd as [|b l' Hab]; [cbn in Hi; lia | exact Hab].
  - cbn [length] in Hi. apply (IH i). lia.
Qed.



(** *** Columns and extremes *)

Lemma add_columns_spec (df : DataFrame) (ap cp apo cpo : list R) :
  length ap = length df -> length cp = length df ->
  length apo = length df -> length cpo = length df ->
  exists loaded : list loaded_row,
    add_columns df ap cp apo cpo = Some loaded /\
    map base loaded = df /\
    map atl_pre loaded = ap /\ map ctl_pre loaded = cp /\
    map atl_post loaded = apo /\ map ctl_post loaded = cpo.
Proof.
  revert ap cp apo cpo.
  induction df as [|r df IH]; intros [|a ap] [|c cp] [|a' apo] [|c' cpo];
    cbn [length]; try discriminate; intros H1 H2 H3 H4.
  - exists []. repeat split.
  - destruct (IH ap cp apo cpo) as (loaded & E & Hb & Hap & Hcp & Hapo & Hcpo);
      try lia.
    cbn [add_columns]. rewrite E. cbn [bind]. eexists. split; [reflexivity|].
    cbn [map base atl_pre ctl_pre atl_post ctl_post].
    now rewrite Hb, Hap, Hcp, Hapo, Hcpo.
Qed.








(** *** The frame of [update_figure] *)

Section FigureFacts.

Context {P : Pandas} {L : PandasLaws P}.

Let by_instant (r : row) : Z := value (recorded r).

Lemma sorted_local_length (activities : DataFrame) :
  length (sorted_local activities) = length activities.
Proof.
  unfold sorted_local. rewrite length_map.
  symmetry. apply Permutation_length, sort_values_perm.
Qed.

Lemma sorted_local_t (activities : DataFrame) (d : row) (i : nat) :
  (i < length activities)%nat ->
  t_ (sorted_local activities) i
  = (IZR (by_instant (nth i (sort_values row by_instant activities) d))
     / 1000000000)%R.
Proof.
  intros Hi. unfold t_, sorted_local. fold by_instant.
  rewrite nth_error_map.
  rewrite (nth_error_nth' _ d)
    by (rewrite <- (Permutation_length (sort_values_perm row by_instant _));
        exact Hi).
  reflexivity.
Qed.


Lemma sorted_local_chronological (activities : DataFrame) :
  chronological (sorted_local activities).
Proof.
  intros i Hi. rewrite sorted_local_length in Hi.
  pose (d := mkrow (mkTimestamp 0 0) 0 "" 0).
  rewrite !(sorted_local_t activities d) by lia.
  pose proof (Sorted_adjacent _ _ d (i - 1)
                (sort_values_sorted row by_instant activities)) as H.
  replace (S (i - 1)) with i in H by lia.
  rewrite <- (Permutation_length (sort_values_perm row by_instant _)) in H.
  specialize (H ltac:(lia)). cbv beta in H. apply IZR_le in H.
  revert H. generalize (IZR (by_instant (nth (i - 1)
                               (sort_values row by_instant activities) d))),
    (IZR (by_instant (nth i (sort_values row by_instant activities) d))).
  intros u v Huv. clear - Huv. lra.
Qed.





Lemma update_figure_returns (activities : DataFrame) :
  activities <> [] -> exists fig, update_figure activities = Some fig.
Proof.
  intros Hne. unfold update_figure.
  assert (Hne' : sorted_local activities <> []).
  { intros H. apply (f_equal (@length row)) in H.
    rewrite sorted_local_length in H. destruct activities; [congruence|].
    discriminate H. }
  destruct (calc_ctl_atl_load_series _ Hne') as (out & E & HL).
  rewrite E. cbn [bind].
  pose proof HL as [(LAb & LAa & _) (LCb & LCa & _)].
  destruct (add_columns_spec (sorted_local activities)
              (ATL_pre out) (CTL_pre out) (ATL_post out) (CTL_post out))
    as (loaded & Eadd & _); try assumption.
  rewrite Eadd. cbn [bind]. eauto.
Qed.

(** X7.  The callback of the training-stress graph raises exactly when
    there is no activity: [calc_ctl_atl] reads the first row. *)
Theorem update_figure_fails_iff_empty (activities : DataFrame) :
  update_figure activities = None <-> activities = [].
Proof.
  split.
  - intros Hnone. destruct activities as [|r l]; [reflexivity|].
    destruct (update_figure_returns (r :: l)) as [fig E]; [discriminate|].
    congruence.
  - intros ->. unfold update_figure.
    assert (E : sorted_local [] = []).
    { apply length_zero_iff_nil. now rewrite sorted_local_length. }
    rewrite E. reflexivity.
Qed.








End FigureFacts.

Lemma update_figure_fails_iff_empty_witness :
  update_figure two_runs <> None.
Proof.
  intros H.
  apply (update_figure_fails_iff_empty (L := sample_pandas_laws) two_runs) in H.
  discriminate H.
Defined.






End TrainingLoadMore.

(** ** The weekly log *)

Module WeeklyLogMore.

Import Calendar WeeklyLog WeeklyLogSpec.
Local Open Scope string_scope.
Local Open Scope Z_scope.



Section SummaryMore.

Context {float : Type} {PF : PyFloat float} {U : Util float}.


(** X12.  [create_week_sum] raises exactly when the sixth day after
    [date_start] is outside the calendar of [datetime.date]; the rows of
    the week play no part in that. *)
Theorem create_week_sum_fails_iff_overflow (df_week : DataFrame float)
    (date_start : date) :
  create_week_sum df_week date_start = None
  <-> ~ (1 <= date_start + 6 <= MAXORDINAL).
Proof.
  unfold create_week_sum.
  destruct (date_add date_start 6) as [date_end|] eqn:E; cbn [bind].
  - apply date_add_value in E.
    split; [discriminate | intros Hout; exfalso; apply Hout; lia].
  - split; [intros _ Hin | reflexivity].
    unfold date_add in E.
    destruct (Z.ltb_spec 0 (date_start + 6)) as [_|Hlo]; [|lia].
    destruct (Z.leb_spec (date_start + 6) MAXORDINAL) as [_|Hhi]; [|lia].
    discriminate E.
Qed.

End SummaryMore.

Import Exact.


Lemma count_from_length (n : nat) (lo : Z) : length (count_from lo n) = n.
Proof.
  revert lo. induction n as [|n IH]; intros lo; cbn; [reflexivity|].
  now rewrite IH.
Qed.

Lemma count_from_app (n m : nat) (lo : Z) :
  count_from lo (n + m) = (count_from lo n ++ count_from (lo + Z.of_nat n) m)%list.
Proof.
  revert lo. induction n as [|n IH]; intros lo.
  - cbn [Nat.add count_from app]. f_equal. lia.
  - cbn [Nat.add count_from app]. rewrite IH. do 3 f_equal. lia.
Qed.

Section WeeksMore.

Context {float : Type} {PF : PyFloat float} {U : Util float}.

Lemma calendar_row_inv (i : Z) (b : WeekBucket float) (r : CalendarRow float) :
  calendar_row i b = Some r ->
  week_summary_id r = i /\ week_cal_index r = i /\
  create_week_sum (df_week b) (mon_last b) = Some (week_summary r) /\
  create_week_cal (df_week b) = Some (week_cal r).
Proof.
  unfold calendar_row.
  destruct (create_week_sum _ _) as [summary|]; [|discriminate]. cbn [bind].
  destruct (create_week_cal _) as [figure|]; [|discriminate]. cbn [bind].
  intros [= <-]. auto.
Qed.

(** The three rows of one call, with the ids that [calendar_row] gave
    them. *)
Lemma update_calendar_appended (n_clicks : option Z)
    (children : option (list (CalendarRow float))) (today : date)
    (df : DataFrame float) (rows : list (CalendarRow float)) :
  update_calendar n_clicks children today df = Some rows ->
  exists r0 r1 r2 : CalendarRow float,
    rows = (or_default children [] ++ [r0; r1; r2])%list /\
    map week_summary_id [r0; r1; r2]
    = count_from (3 * or_default n_clicks 0) 3 /\
    map week_cal_index [r0; r1; r2]
    = count_from (3 * or_default n_clicks 0) 3.
Proof.
  intros H.
  destruct (update_calendar_rows _ _ _ _ _ H)
    as (b0 & b1 & b2 & r0 & r1 & r2 & [_ R0] & [_ R1] & [_ R2] & Hrows).
  apply calendar_row_inv in R0, R1, R2.
  destruct R0 as (A0 & B0 & _), R1 as (A1 & B1 & _), R2 as (A2 & B2 & _).
  exists r0, r1, r2. split; [exact Hrows|]. cbn [map count_from].
  rewrite A0, A1, A2, B0, B1, B2, <- !Z.add_assoc. auto.
Qed.

(** X13.  A click appends exactly three rows behind those already on the
    page, and numbers them [3n], [3n+1], [3n+2] for the click count [n]. *)
Theorem update_calendar_appends_three (n_clicks : option Z)
    (children : option (list (CalendarRow float))) (today : date)
    (df : DataFrame float) (rows : list (CalendarRow float)) :
  update_calendar n_clicks children today df = Some rows ->
  let n := or_default n_clicks 0 in
  exists new_rows : list (CalendarRow float),
    rows = (or_default children [] ++ new_rows)%list /\
    map week_summary_id new_rows = [3 * n; 3 * n + 1; 3 * n + 2] /\
    map week_cal_index new_rows = [3 * n; 3 * n + 1; 3 * n + 2].
Proof.
  intros H n.
  destruct (update_calendar_appended _ _ _ _ _ H)
    as (r0 & r1 & r2 & Hrows & Hs & Hc).
  exists [r0; r1; r2]. split; [exact Hrows|].
  rewrite Hs, Hc. fold n. cbn [count_from].
  rewrite <- !Z.add_assoc. auto.
Qed.

(** X14.  After the page load and [k] clicks the page shows [3(k+1)] rows,
    numbered 0, 1, 2, ... in this order: no number is skipped or used
    twice. *)
Theorem calendar_after_numbering (today : date) (df : DataFrame float)
    (k : nat) (rows : list (CalendarRow float)) :
  calendar_after today df k = Some rows ->
  map week_cal_index rows = range 0 (3 * (Z.of_nat k + 1)) /\
  map week_summary_id rows = range 0 (3 * (Z.of_nat k + 1)).
Proof.
  revert rows. induction k as [|k IH]; intros rows H.
  - cbn [calendar_after] in H.
    destruct (update_calendar_appended _ _ _ _ _ H)
      as (r0 & r1 & r2 & -> & Hs & Hc).
    cbn [or_default app] in *. rewrite Hs, Hc. split; reflexivity.
  - cbn [calendar_after] in H.
    destruct (calendar_after today df k) as [prev|]; [|discriminate].
    cbn [bind] in H. destruct (IH prev eq_refl) as [IHc IHs].
    destruct (update_calendar_appended _ _ _ _ _ H)
      as (r0 & r1 & r2 & -> & Hs & Hc).
    cbn [or_default] in *.
    rewrite !map_app, IHc, IHs, Hs, Hc.
    unfold range.
    replace (Z.to_nat (3 * (Z.of_nat (S k) + 1) - 0))
      with (Z.to_nat (3 * (Z.of_nat k + 1) - 0) + 3)%nat by lia.
    rewrite count_from_app.
    replace (0 + Z.of_nat (Z.to_nat (3 * (Z.of_nat k + 1) - 0)))
      with (3 * Z.of_nat (S k)) by lia.
    split; reflexivity.
Qed.

(** X15.  The week of a row: week [i] holds exactly the rows of the frame
    whose date lies [i] whole weeks before the Sunday of today's week.
    So two different weeks never hold the same row, within a window or
    across clicks. *)
Theorem week_bucket_index (today : date) (df : DataFrame float) (i : Z)
    (b : WeekBucket float) :
  week_bucket today df i = Some b ->
  (forall r : row float,
     in_bucket b r
     <-> In r df /\ (today - weekday today + 6 - recorded_date r) / 7 = i) /\
  (forall (j : Z) (b' : WeekBucket float) (r : row float),
     week_bucket today df j = Some b' -> i <> j ->
     ~ (in_bucket b r /\ in_bucket b' r)).
Proof.
  intros H.
  assert (Hidx : forall k c, week_bucket today df k = Some c ->
            forall r : row float,
              in_bucket c r
              <-> In r df /\
                  (today - weekday today + 6 - recorded_date r) / 7 = k).
  { intros k c Hc r.
    destruct (week_bucket_bounds _ _ _ _ Hc) as (Hhi & Hlo & Hin).
    rewrite Hin. unfold in_week. rewrite Hhi, Hlo.
    split; intros [Hr Hd]; (split; [exact Hr|]);
      Z.div_mod_to_equations; lia. }
  split; [now apply Hidx|].
  intros j b' r Hb' Hij [Hr Hr'].
  apply (Hidx i b H) in Hr. apply (Hidx j b' Hb') in Hr'.
  destruct Hr as [_ Hi], Hr' as [_ Hj]. congruence.
Qed.

(** X16.  The bounds of a week are computed, and its rows selected,
    exactly when both Mondays are dates of the calendar; otherwise
    [today - timedelta(...)] raises. *)
Theorem week_bucket_fails_iff_overflow (today : date) (df : DataFrame float)
    (i : Z) :
  week_bucket today df i = None
  <-> ~ (1 <= today - weekday today - 7 * i /\
         today - weekday today - 7 * (i - 1) <= MAXORDINAL).
Proof.
  unfold week_bucket, date_sub, date_add.
  set (hi := today + - (weekday today + 7 * (i - 1))).
  set (lo := today + - (weekday today + 7 * (i - 1) + 7)).
  assert (Ehi : hi = today - weekday today - 7 * (i - 1)) by (unfold hi; lia).
  assert (Elo : lo = today - weekday today - 7 * i) by (unfold lo; lia).
  rewrite <- Ehi, <- Elo.
  assert (Hlohi : lo = hi - 7) by lia.
  destruct (Z.ltb_spec 0 hi) as [Hh0|Hh0];
    destruct (Z.leb_spec hi MAXORDINAL) as [Hh1|Hh1]; cbn [andb bind];
    try (split; [intros _; lia | reflexivity]).
  destruct (Z.ltb_spec 0 lo) as [Hl0|Hl0];
    destruct (Z.leb_spec lo MAXORDINAL) as [Hl1|Hl1]; cbn [andb bind];
    try (split; [intros _; lia | reflexivity]).
  split; [discriminate | intros Hout; exfalso; apply Hout; lia].
Qed.

End WeeksMore.

Lemma update_calendar_appends_three_witness :
  exists (rows new_rows : list (CalendarRow Q)),
    update_calendar None None Exact.today_wed Exact.sample_df = Some rows /\
    rows = new_rows /\
    map week_cal_index new_rows = [0; 1; 2].
Proof.
  assert (Hs : is_some (update_calendar None None Exact.today_wed
                          Exact.sample_df) = true)
    by (vm_compute; reflexivity).
  destruct (update_calendar None None Exact.today_wed Exact.sample_df)
    as [rows|] eqn:E; [|discriminate Hs].
  destruct (update_calendar_appends_three None None Exact.today_wed
              Exact.sample_df rows E) as (new_rows & Hrows & _ & Hc).
  exists rows, new_rows. split; [reflexivity|]. split; [exact Hrows|exact Hc].
Defined.

Lemma calendar_after_numbering_witness :
  exists rows : list (CalendarRow Q),
    calendar_after Exact.today_wed Exact.sample_df 1 = Some rows /\
    map week_cal_index rows = [0; 1; 2; 3; 4; 5].
Proof.
  assert (Hs : is_some (calendar_after Exact.today_wed Exact.sample_df 1)
               = true)
    by (vm_compute; reflexivity).
  destruct (calendar_after Exact.today_wed Exact.sample_df 1)
    as [rows|] eqn:E; [|discriminate Hs].
  exists rows. split; [reflexivity|].
  apply (calendar_after_numbering Exact.today_wed Exact.sample_df 1 rows E).
Defined.

Lemma week_bucket_index_witness :
  exists b : WeekBucket Q,
    week_bucket Exact.today_wed Exact.sample_df 1 = Some b /\
    (in_bucket b Exact.run_prev
     <-> In Exact.run_prev Exact.sample_df /\
         (Exact.today_wed - weekday Exact.today_wed + 6
          - recorded_date Exact.run_prev) / 7 = 1).
Proof.
  assert (Hs : is_some (week_bucket Exact.today_wed Exact.sample_df 1) = true)
    by (vm_compute; reflexivity).
  destruct (week_bucket Exact.today_wed Exact.sample_df 1) as [b|] eqn:E;
    [|discriminate Hs].
  exists b. split; [reflexivity|].
  apply (week_bucket_index Exact.today_wed Exact.sample_df 1 b E).
Defined.

(** *** The week figure and the remapper *)


Lemma map_opt_Forall2 {A B : Type} (f : A -> option B) (l : list A)
    (l' : list B) :
  map_opt f l = Some l' <-> Forall2 (fun a b => f a = Some b) l l'.
Proof.
  revert l'. induction l as [|a l IH]; intros l'; cbn [map_opt].
  - split; [intros [= <-]; constructor | intros H; inversion H; reflexivity].
  - split.
    + destruct (f a) as [b|] eqn:Ea; [|discriminate]. cbn [bind].
      destruct (map_opt f l) as [bs|]; [|discriminate]. cbn [bind].
      intros [= <-]. constructor; [exact Ea | now apply IH].
    + intros H. inversion H as [|? b ? bs Hab Hrest]; subst.
      rewrite Hab. cbn [bind]. apply IH in Hrest. rewrite Hrest. reflexivity.
Qed.

Lemma Forall2_Forall_r {A B : Type} (R : A -> B -> Prop) (Q : B -> Prop)
    (l : list A) (l' : list B) :
  (forall a b, R a b -> Q b) -> Forall2 R l l' -> Forall Q l'.
Proof. intros HRQ. induction 1; constructor; eauto. Qed.

Lemma In_count_from_iff (n : nat) (lo k : Z) :
  In k (count_from lo n) <-> lo <= k < lo + Z.of_nat n.
Proof.
  revert lo. induction n as [|n IH]; intros lo; cbn [count_from In].
  - lia.
  - rewrite IH. lia.
Qed.

Section FigureMore.

Context {float : Type} {PF : PyFloat float} {U : Util float}.

Lemma customdata_row_length (r : row float) (cdata : list (pyval float)) :
  customdata_row r = Some cdata -> length cdata = 10%nat.
Proof.
  unfold customdata_row.
  destruct (seconds_to_string _); [|discriminate]. cbn [bind].
  destruct (speed_to_pace _); [|discriminate]. cbn [bind].
  destruct (speed_to_pace _); [|discriminate]. cbn [bind].
  now intros [= <-].
Qed.

Lemma weekday_of_row (r : row float) : 0 <= weekday_ r <= 6.
Proof. unfold weekday_, dt_weekday. apply weekday_range. Qed.

Lemma create_week_cal_inv (df_week : DataFrame float) (fig : Figure float) :
  create_week_cal df_week = Some fig ->
  exists (tr : Trace float) (cd : list (list (pyval float))),
    map_opt customdata_row df_week = Some cd /\
    data fig = [tr] /\
    x tr = map weekday_ df_week /\
    y tr = map (fun _ => 2) df_week /\
    text tr = map (fun r => anchor (id r) ++ format_f 1 (miles r) ++ "</a>")
                  df_week /\
    size (marker tr) = map (fun r => VFloat (distance_m r)) df_week /\
    customdata tr = cd /\
    annotations (layout fig)
    = filter (fun d => negb (existsb (Z.eqb d) (map weekday_ df_week)))
             (range 0 7) /\
    transition_duration (layout fig) = None.
Proof.
  unfold create_week_cal.
  destruct (map_opt customdata_row df_week) as [cd|]; [|discriminate].
  cbn [bind]. intros [= <-]. do 2 eexists. split; [reflexivity|].
  cbn. repeat split.
Qed.

(** X17.  The figure of a week has one trace with one bubble for each row:
    as many positions, labels, sizes and [customdata] rows as the week has
    rows, every [customdata] row with its ten entries, every bubble on a
    weekday between 0 and 6 and at height 2. *)
Theorem create_week_cal_shape (df_week : DataFrame float) (fig : Figure float) :
  create_week_cal df_week = Some fig ->
  exists tr : Trace float,
    data fig = [tr] /\
    length (x tr) = length df_week /\
    length (y tr) = length df_week /\
    length (text tr) = length df_week /\
    length (size (marker tr)) = length df_week /\
    length (customdata tr) = length df_week /\
    Forall (fun cdata => length cdata = 10%nat) (customdata tr) /\
    Forall (fun d => 0 <= d <= 6) (x tr) /\
    Forall (fun h => h = 2) (y tr).
Proof.
  intros H.
  destruct (create_week_cal_inv _ _ H)
    as (tr & cd & Ecd & Hd & Hx & Hy & Ht & Hs & Hc & _).
  exists tr. rewrite Hx, Hy, Ht, Hs, Hc, !length_map.
  assert (Hlen : length cd = length df_week) by now apply map_opt_length in Ecd.
  assert (Hten : Forall (fun cdata => length cdata = 10%nat) cd).
  { apply map_opt_Forall2 in Ecd.
    apply (Forall2_Forall_r _ _ _ _ customdata_row_length Ecd). }
  assert (Hdays : Forall (fun d => 0 <= d <= 6) (map weekday_ df_week)).
  { apply Forall_forall. intros d Hd'. apply in_map_iff in Hd'.
    destruct Hd' as (r & <- & _). apply weekday_of_row. }
  assert (Htwo : Forall (fun h => h = 2) (map (fun _ : row float => 2) df_week)).
  { apply Forall_forall. intros h Hh. apply in_map_iff in Hh.
    now destruct Hh as (r & <- & _). }
  auto 12.
Qed.

(** X18.  Each day of the week carries a 'Rest' annotation exactly when no
    row of the week was recorded on it: a day shows a bubble or 'Rest',
    never both and never neither. *)
Theorem create_week_cal_rest_days (df_week : DataFrame float)
    (fig : Figure float) :
  create_week_cal df_week = Some fig ->
  exists tr : Trace float,
    data fig = [tr] /\
    (forall d : Z,
       In d (annotations (layout fig)) <-> 0 <= d <= 6 /\ ~ In d (x tr)) /\
    NoDup (annotations (layout fig)).
Proof.
  intros H.
  destruct (create_week_cal_inv _ _ H)
    as (tr & cd & _ & Hd & Hx & _ & _ & _ & _ & Ha & _).
  exists tr. split; [exact Hd|]. rewrite Ha, Hx. split.
  - intros d. rewrite filter_In. unfold range. rewrite In_count_from_iff.
    change (Z.of_nat (Z.to_nat (7 - 0))) with 7.
    rewrite negb_true_iff. split.
    + intros [Hr Hex]. split; [lia|]. intros Hin.
      assert (Ht : existsb (Z.eqb d) (map weekday_ df_week) = true).
      { apply existsb_exists. exists d. split; [exact Hin | apply Z.eqb_refl]. }
      congruence.
    + intros [Hr Hnin]. split; [lia|].
      destruct (existsb (Z.eqb d) (map weekday_ df_week)) eqn:E;
        [|reflexivity].
      apply existsb_exists in E. destruct E as (d' & Hin & Heq).
      apply Z.eqb_eq in Heq. subst d'. contradiction.
  - apply NoDup_filter. vm_compute.
    repeat (constructor; [cbn; intuition discriminate|]). constructor.
Qed.











(** X22.  The remapper touches the displayed part of the first trace
    only: positions, [customdata], the other traces and the 'Rest'
    annotations come back as they were, and the transition duration
    is 1000. *)
Theorem update_week_cal_keeps_data (fig fig' : Figure float)
    (bubble_type : string) :
  update_week_cal fig bubble_type = Some fig' ->
  length (data fig') = length (data fig) /\
  map x (data fig') = map x (data fig) /\
  map y (data fig') = map y (data fig) /\
  map customdata (data fig') = map customdata (data fig) /\
  tl (data fig') = tl (data fig) /\
  annotations (layout fig') = annotations (layout fig) /\
  transition_duration (layout fig') = Some 1000.
Proof.
  intros H.
  destruct (update_week_cal_inv _ _ _ H) as (tr & tr' & others & Hd & Hr & ->).
  apply remap_trace_source in Hr. unfold source in Hr.
  injection Hr as Hx Hy _ _ _ Hc _.
  rewrite Hd. cbn [data layout annotations transition_duration map length tl].
  now rewrite Hx, Hy, Hc.
Qed.

(** X23.  A remap to a metric of the selector pairs labels with
    [customdata] rows as [zip] does: the trace gets as many sizes as it has
    [customdata] rows and as many labels as the shorter of the old labels
    and the rows; a figure with as many labels as rows keeps its count. *)
Theorem update_week_cal_counts (fig fig' : Figure float) (tr tr' : Trace float)
    (bubble_type : string) :
  In bubble_type bubble_options ->
  update_week_cal fig bubble_type = Some fig' ->
  nth_error (data fig) 0 = Some tr ->
  nth_error (data fig') 0 = Some tr' ->
  length (size (marker tr')) = length (customdata tr) /\
  length (text tr')
  = Nat.min (length (text tr)) (length (customdata tr)).
Proof.
  intros Hin H Htr Htr'.
  destruct (update_week_cal_inv _ _ _ H) as (t & t' & others & Hd & Hr & ->).
  rewrite Hd in Htr. cbn in Htr, Htr'.
  injection Htr as <-. injection Htr' as <-.
  rewrite (remap_trace_view _ _ Hin) in Hr.
  destruct (metric_view (customdata t) bubble_type) as [view|] eqn:E;
    [|discriminate].
  cbn [bind] in Hr. injection Hr as <-.
  apply metric_view_length in E.
  unfold with_view. cbn [marker size text].
  rewrite !length_map, length_combine, length_map, E. auto.
Qed.

(** X24.  The last selection decides: after any sequence of selections, a
    remap to a metric of the selector gives what it gives on the figure
    the sequence started from. *)
Theorem select_all_last_wins (fig f1 : Figure float) (metrics : list string)
    (m : string) :
  In m bubble_options ->
  select_all fig metrics = Some f1 ->
  update_week_cal f1 m = update_week_cal fig m.
Proof.
  intros Hin. revert fig. induction metrics as [|m0 metrics IH]; intros fig H.
  - cbn in H. now injection H as <-.
  - cbn [select_all] in H.
    destruct (update_week_cal fig m0) as [f|] eqn:E; [|discriminate].
    cbn [bind] in H. rewrite (IH f H).
    now apply (update_after_update fig f m0 m).
Qed.

(** X25.  The links survive every sequence of selections: from the figure
    of a week as first rendered, each label still opens with the anchor of
    the activity of its row, and [customdata] is as rendered. *)
Theorem select_all_keeps_links (df_week : DataFrame float)
    (f0 f : Figure float) (metrics : list string) :
  create_week_cal df_week = Some f0 ->
  select_all f0 metrics = Some f ->
  exists tr0 tr : Trace float,
    data f0 = [tr0] /\ data f = [tr] /\
    customdata tr = customdata tr0 /\
    map href (text tr) = map (fun r => anchor (id r)) df_week.
Proof.
  intros H0.
  destruct (create_week_cal_inv _ _ H0)
    as (tr0 & cd & Ecd & Hd0 & _ & _ & Ht0 & _ & Hc0 & _).
  assert (Hlen : length cd = length df_week) by now apply map_opt_length in Ecd.
  assert (Hinv : forall g trg,
            data g = [trg] -> customdata trg = cd ->
            map href (text trg) = map (fun r => anchor (id r)) df_week ->
            forall ms f, select_all g ms = Some f ->
            exists tr, data f = [tr] /\ customdata tr = cd /\
              map href (text tr) = map (fun r => anchor (id r)) df_week).
  { intros g trg Hg Hcg Hhg ms. revert g trg Hg Hcg Hhg.
    induction ms as [|m ms IH]; intros g trg Hg Hcg Hhg f' Hsel.
    - cbn in Hsel. injection Hsel as <-. eauto.
    - cbn [select_all] in Hsel.
      destruct (update_week_cal g m) as [g'|] eqn:E; [|discriminate].
      cbn [bind] in Hsel.
      destruct (update_week_cal_inv _ _ _ E) as (t & t' & others & Hd & Hr & ->).
      rewrite Hg in Hd. injection Hd as <- <-.
      refine (IH _ t' _ _ _ f' Hsel).
      + reflexivity.
      + apply remap_trace_source in Hr. unfold source in Hr.
        injection Hr as _ _ _ _ _ Hc _. congruence.
      + destruct (in_dec string_dec m bubble_options) as [Hin|Hout].
        * rewrite (remap_trace_view _ _ Hin) in Hr.
          destruct (metric_view (customdata trg) m) as [view|] eqn:Ev;
            [|discriminate].
          cbn [bind] in Hr. injection Hr as <-.
          apply metric_view_length in Ev.
          unfold with_view. cbn [text].
          rewrite anchors_kept, Hhg, Ev, Hcg, Hlen.
          apply firstn_all2. now rewrite length_map.
        * rewrite (remap_trace_other _ _ Hout) in Hr. now injection Hr as <-. }
  intros Hsel.
  destruct (Hinv f0 tr0 Hd0 Hc0) with (ms := metrics) (f := f)
    as (tr & Hd & Hc & Hh); [|exact Hsel|].
  - rewrite Ht0, map_map. apply map_ext. intros r. apply href_anchor.
  - exists tr0, tr. rewrite Hc0. auto.
Qed.

(** X26.  For the whole calendar as for one figure: after the selector
    has remapped the figures to some metric, a remap to a metric of the
    selector gives what it gives on the figures as they were before. *)
Theorem update_calendar_figures_last_wins (figures figures1 : list (Figure float))
    (m' m : string) :
  In m bubble_options ->
  update_calendar_figures m' figures = Some figures1 ->
  update_calendar_figures m figures1 = update_calendar_figures m figures.
Proof.
  intros Hin. unfold update_calendar_figures. revert figures1.
  induction figures as [|fig figures IH]; intros figures1; cbn [map_opt].
  - now intros [= <-].
  - destruct (update_week_cal fig m') as [f1|] eqn:E; [|discriminate].
    cbn [bind].
    destruct (map_opt (fun figure => update_week_cal figure m') figures)
      as [rest|]; [|discriminate].
    cbn [bind]. intros [= <-]. cbn [map_opt].
    rewrite (update_after_update fig f1 m' m Hin E).
    now rewrite (IH rest eq_refl).
Qed.

End FigureMore.

(** *** The statements on the sample week *)

Lemma create_week_cal_shape_witness :
  exists tr : Trace Q,
    data rendered_week = [tr] /\
    length (x tr) = 2%nat /\
    length (y tr) = 2%nat /\
    length (text tr) = 2%nat /\
    length (size (marker tr)) = 2%nat /\
    length (customdata tr) = 2%nat /\
    Forall (fun cdata => length cdata = 10%nat) (customdata tr) /\
    Forall (fun d => 0 <= d <= 6) (x tr) /\
    Forall (fun h => h = 2) (y tr).
Proof.
  apply (create_week_cal_shape [run_mon; run_wed] rendered_week).
  vm_compute. reflexivity.
Defined.

Lemma create_week_cal_rest_days_witness :
  exists tr : Trace Q,
    data rendered_week = [tr] /\
    (forall d : Z,
       In d (annotations (layout rendered_week))
       <-> 0 <= d <= 6 /\ ~ In d (x tr)) /\
    NoDup (annotations (layout rendered_week)).
Proof.
  apply (create_week_cal_rest_days [run_mon; run_wed] rendered_week).
  vm_compute. reflexivity.
Defined.



Lemma update_week_cal_keeps_data_witness :
  length (data elevation_week) = length (data rendered_week) /\
  map x (data elevation_week) = map x (data rendered_week) /\
  map y (data elevation_week) = map y (data rendered_week) /\
  map customdata (data elevation_week) = map customdata (data rendered_week) /\
  tl (data elevation_week) = tl (data rendered_week) /\
  annotations (layout elevation_week) = annotations (layout rendered_week) /\
  transition_duration (layout elevation_week) = Some 1000.
Proof.
  apply (update_week_cal_keeps_data rendered_week elevation_week "Elevation").
  vm_compute. reflexivity.
Defined.

Lemma update_week_cal_counts_witness :
  exists tr tr' : Trace Q,
    nth_error (data rendered_week) 0 = Some tr /\
    nth_error (data elevation_week) 0 = Some tr' /\
    length (size (marker tr')) = length (customdata tr) /\
    length (text tr') = Nat.min (length (text tr)) (length (customdata tr)).
Proof.
  do 2 eexists. split; [reflexivity|]. split; [reflexivity|].
  apply (update_week_cal_counts rendered_week elevation_week _ _ "Elevation").
  - cbn. tauto.
  - vm_compute. reflexivity.
  - reflexivity.
  - reflexivity.
Defined.

Lemma select_all_last_wins_witness :
  exists f1 : Figure Q,
    select_all rendered_week ["Elevation"; "Time"] = Some f1 /\
    update_week_cal f1 "Distance" = update_week_cal rendered_week "Distance".
Proof.
  assert (Hs : is_some (select_all rendered_week ["Elevation"; "Time"]) = true)
    by (vm_compute; reflexivity).
  destruct (select_all rendered_week ["Elevation"; "Time"]) as [f1|] eqn:E;
    [|discriminate Hs].
  exists f1. split; [reflexivity|].
  apply (select_all_last_wins rendered_week f1 ["Elevation"; "Time"]
           "Distance"); [cbn; tauto | exact E].
Defined.

Lemma select_all_keeps_links_witness :
  exists (f : Figure Q) (tr0 tr : Trace Q),
    select_all rendered_week ["TSS"; "Pace"; "Time"] = Some f /\
    data rendered_week = [tr0] /\ data f = [tr] /\
    customdata tr = customdata tr0 /\
    map href (text tr) = [anchor 100; anchor 101].
Proof.
  assert (Hs : is_some (select_all rendered_week ["TSS"; "Pace"; "Time"])
               = true)
    by (vm_compute; reflexivity).
  destruct (select_all rendered_week ["TSS"; "Pace"; "Time"]) as [f|] eqn:E;
    [|discriminate Hs].
  destruct (select_all_keeps_links [run_mon; run_wed] rendered_week f
              ["TSS"; "Pace"; "Time"]) as (tr0 & tr & H0 & H1 & Hc & Hh);
    [vm_compute; reflexivity | exact E|].
  exists f, tr0, tr. auto.
Defined.

Lemma update_calendar_figures_last_wins_witness :
  update_calendar_figures "Distance" [elevation_week; elevation_week]
  = update_calendar_figures "Distance" [rendered_week; rendered_week].
Proof.
  apply (update_calendar_figures_last_wins [rendered_week; rendered_week]
           [elevation_week; elevation_week] "Elevation" "Distance").
  - cbn. tauto.
  - vm_compute. reflexivity.
Defined.

End WeeklyLogMore.
